(** * Order fulfilment: product strategies, strategy factory, order processor

    A shallow embedding of

      - [services/impl/product-strategy.ts]
        (NormalProductStrategy, SeasonalProductStrategy,
        ExpirableProductStrategy),
      - [services/impl/product-strategy-factory.ts]
        (ProductStrategyFactory.createStrategy),
      - [services/impl/order-processing.service.ts]
        (OrderProcessingService.processProductOrder / processOrder),

    followed by the properties the specification states about them.

    Conventions of the embedding.
      - A JavaScript [number] holding an integer column is a [Z].
      - A valid [Date] is its time value, the number of milliseconds since
        the epoch, a [Z]; [Date | null] is [option Date].  Relational
        operators on dates compare time values, and [null] converts to 0.
      - An [async] function is a computation in the monad [M] below: state
        passing over a [World] (database table, clock, log of effects) that
        either returns or throws; [await] is the monad's bind.
      - A deferred [notificationAction] closure is represented by the one
        call of the notification service it performs when invoked; the
        product it captured is not mutated in between.
      - The arithmetic of the source is that of JavaScript numbers: a
        difference, sum or product is the exact result rounded to the
        nearest double ([Number.minus], [Number.plus], [Number.times]),
        and [new Date(t)] is an invalid date when [t] is outside the range
        of [Date] ([newDateAt]).  The numbers and dates a product holds are
        finite, integral and valid.
      - The collaborators succeed: an awaited update and a notification
        call return, they do not throw. *)

From Stdlib Require Import ZArith String List Bool Lia.
Import ListNotations.

Local Open Scope string_scope.
Local Open Scope Z_scope.
Local Open Scope list_scope.

(** ** Data model *)

(** Time value of a valid [Date], in milliseconds since the epoch. *)
Definition Date : Type := Z.

(** Modelled from the spec: the row type [Product] of [db/schema], whose
    declaration is not among the sources.  The fields are the ones the
    strategies read and the test fixtures populate (spec, section 3): an
    integer [id], [leadTime] and [available], a textual [type] and [name],
    and three nullable dates. *)
Record Product : Type := {
  id : Z;
  leadTime : Z;
  available : Z;
  type : string;
  name : string;
  expiryDate : option Date;
  seasonStartDate : option Date;
  seasonEndDate : option Date
}.

(** [Partial<Product>]: every field is optional.  A field that is absent is
    [None]; a nullable date that is present is [Some None] or [Some (Some d)]. *)
Module Partial.
Record PartialProduct : Type := {
  id : option Z;
  leadTime : option Z;
  available : option Z;
  type : option string;
  name : option string;
  expiryDate : option (option Date);
  seasonStartDate : option (option Date);
  seasonEndDate : option (option Date)
}.
End Partial.
Import Partial (PartialProduct).

(** The object spread [{...product}]: every field of [product] is present. *)
Definition spread (product : Product) : PartialProduct :=
  {| Partial.id := Some (id product);
     Partial.leadTime := Some (leadTime product);
     Partial.available := Some (available product);
     Partial.type := Some (type product);
     Partial.name := Some (name product);
     Partial.expiryDate := Some (expiryDate product);
     Partial.seasonStartDate := Some (seasonStartDate product);
     Partial.seasonEndDate := Some (seasonEndDate product) |}.

(** [{...o, available: v}] *)
Definition withAvailable (v : Z) (o : PartialProduct) : PartialProduct :=
  {| Partial.id := Partial.id o;
     Partial.leadTime := Partial.leadTime o;
     Partial.available := Some v;
     Partial.type := Partial.type o;
     Partial.name := Partial.name o;
     Partial.expiryDate := Partial.expiryDate o;
     Partial.seasonStartDate := Partial.seasonStartDate o;
     Partial.seasonEndDate := Partial.seasonEndDate o |}.

(** [{...o, leadTime: v}] *)
Definition withLeadTime (v : Z) (o : PartialProduct) : PartialProduct :=
  {| Partial.id := Partial.id o;
     Partial.leadTime := Some v;
     Partial.available := Partial.available o;
     Partial.type := Partial.type o;
     Partial.name := Partial.name o;
     Partial.expiryDate := Partial.expiryDate o;
     Partial.seasonStartDate := Partial.seasonStartDate o;
     Partial.seasonEndDate := Partial.seasonEndDate o |}.

(** Modelled from the spec: the port [INotificationService] of
    [services/notifications.port], whose declaration is not among the
    sources.  It has the three operations of spec section 6; a value of this
    type is one call of the service with its arguments. *)
Inductive Notification : Type :=
| sendDelayNotification (leadTime : Z) (productName : string)
| sendOutOfStockNotification (productName : string)
| sendExpirationNotification (productName : string) (expiryDate : option Date).

(** [ProductProcessingResult]; the two optional members are absent as [None].
    [notificationAction] is the call the closure makes when it is invoked. *)
Record ProductProcessingResult : Type := {
  shouldUpdateStock : bool;
  updatedProduct : option PartialProduct;
  notificationAction : option Notification
}.

(** The number a date operand of [<] or [>] converts to: the time value of a
    date, and [+0] for [null]. *)
Definition toNumber (d : option Date) : Z :=
  match d with
  | Some t => t
  | None => 0
  end.

(** ** JavaScript numbers

    An integer-valued number is the [Z] it holds.  Not every [Z] is a
    number: a double has a significand of 53 bits, so beyond [2 ^ 53] only
    the multiples of the spacing [ulp] are numbers. *)
Module Number.

(** The double nearest to an integer, ties going to the even significand:
    below [2 ^ 53] the integer itself, above it the nearest multiple of the
    spacing of its binade. *)
Definition roundToDouble (z : Z) : Z :=
  let m := Z.abs z in
  if m <? 2 ^ 53 then z
  else
    let ulp := 2 ^ (Z.log2 m - 52) in
    let q := m / ulp in
    let r := m mod ulp in
    let q' :=
      if 2 * r <? ulp then q
      else if ulp <? 2 * r then q + 1
      else if Z.even q then q else q + 1 in
    Z.sgn z * (q' * ulp).

Definition isNumber (z : Z) : bool := roundToDouble z =? z.

(** An arithmetic operator of the source: on numbers, the exact result
    rounded to the nearest double.  The operands of the source are always
    numbers; on an integer that no number holds there is nothing to round
    from, and the result is left exact. *)
Definition arith (op : Z -> Z -> Z) (a b : Z) : Z :=
  if isNumber a && isNumber b then roundToDouble (op a b) else op a b.

(** [a - b] *)
Definition minus : Z -> Z -> Z := arith Z.sub.

(** [a + b] *)
Definition plus : Z -> Z -> Z := arith Z.add.

(** [a * b] *)
Definition times : Z -> Z -> Z := arith Z.mul.

End Number.

(** ** Dates made from a time value *)

(** The largest time value a [Date] holds, in milliseconds. *)
Definition maxTime : Z := 8640000000000000.

(** A [Date] object the code has built: valid with its time value, or the
    invalid date. *)
Inductive DateObject : Type :=
| ValidDate (time : Date)
| InvalidDate.

(** [new Date(t)]: the date at [t] when [t] is within the range of [Date],
    the invalid date otherwise (also for a sum that overflowed). *)
Definition newDateAt (t : Z) : DateObject :=
  if Z.abs t <=? maxTime then ValidDate t else InvalidDate.

(** [d > bound] for a date object [d]: the time value of an invalid date is
    [NaN], which is greater than nothing. *)
Definition laterThan (d : DateObject) (bound : Z) : bool :=
  match d with
  | ValidDate t => t >? bound
  | InvalidDate => false
  end.

(** ** The world an [async] function runs in *)

(** What the collaborators observe, in the order it happens.  [DbUpdate] is
    one completed [update(products).set(values).where(eq(products.id, whereId))]
    and [Notified] one call of the notification service. *)
Inductive Event : Type :=
| DbUpdate (values : PartialProduct) (whereId : Z)
| Notified (call : Notification).

(** The [products] table, the system clock and the log of events.  The clock
    is an arbitrary sequence of readings: [clock n] is what the [n]-th
    [new Date()] returns, and [ticks] counts the readings made so far. *)
Record World : Type := {
  database : list Product;
  clock : nat -> Date;
  ticks : nat;
  log : list Event
}.

(** [Error(message)] *)
Inductive JsError : Type :=
| Error (message : string).

Inductive Outcome (A : Type) : Type :=
| Returned (value : A)
| Thrown (error : JsError).
Arguments Returned {A} value.
Arguments Thrown {A} error.

(** An [async] computation: it transforms the world and returns or throws;
    the effects made before a throw stay made. *)
Definition M (A : Type) : Type := World -> World * Outcome A.

Definition ret {A : Type} (a : A) : M A := fun w => (w, Returned a).

Definition throw {A : Type} (e : JsError) : M A := fun w => (w, Thrown e).

Definition bind {A B : Type} (m : M A) (k : A -> M B) : M B :=
  fun w =>
    match m w with
    | (w', Returned a) => k a w'
    | (w', Thrown e) => (w', Thrown e)
    end.

Notation "x <- m ;; k" := (bind m (fun x => k))
  (at level 61, m at next level, right associativity).
Notation "m ;; k" := (bind m (fun _ => k))
  (at level 61, right associativity).

(** [new Date()] *)
Definition newDate : M Date :=
  fun w =>
    ({| database := database w;
        clock := clock w;
        ticks := S (ticks w);
        log := log w |},
     Returned (clock w (ticks w))).

(** Invoking a [notificationAction]: the service receives the call, which
    is taken to succeed. *)
Definition invoke (call : Notification) : M unit :=
  fun w =>
    ({| database := database w;
        clock := clock w;
        ticks := ticks w;
        log := log w ++ [Notified call] |},
     Returned tt).

Definition orElse {A : Type} (o : option A) (d : A) : A :=
  match o with
  | Some a => a
  | None => d
  end.

(** The columns named in [values] are overwritten, the others are kept. *)
Definition applySet (values : PartialProduct) (row : Product) : Product :=
  {| id := orElse (Partial.id values) (id row);
     leadTime := orElse (Partial.leadTime values) (leadTime row);
     available := orElse (Partial.available values) (available row);
     type := orElse (Partial.type values) (type row);
     name := orElse (Partial.name values) (name row);
     expiryDate := orElse (Partial.expiryDate values) (expiryDate row);
     seasonStartDate :=
       orElse (Partial.seasonStartDate values) (seasonStartDate row);
     seasonEndDate :=
       orElse (Partial.seasonEndDate values) (seasonEndDate row) |}.

Definition updateWhereId (values : PartialProduct) (whereId : Z)
  (rows : list Product) : list Product :=
  map (fun row => if id row =? whereId then applySet values row else row) rows.

(** Modelled from the spec: the persistence collaborator [Database] of
    [db/type], which is not among the sources.  The awaited
    [database.update(products).set(values).where(eq(products.id, whereId))]
    is the partial update of spec section 6: the fields present in [values]
    are written to every row whose [id] is [whereId], atomically.  The
    update is taken to succeed; a failure of the collaborator, which would
    propagate out of the processor, is outside the model, and no property
    below says that the real call returns. *)
Definition update (values : PartialProduct) (whereId : Z) : M unit :=
  fun w =>
    ({| database := updateWhereId values whereId (database w);
        clock := clock w;
        ticks := ticks w;
        log := log w ++ [DbUpdate values whereId] |},
     Returned tt).

(** [IProductStrategy] *)
Record IProductStrategy : Type := Strategy {
  processOrder : Product -> M ProductProcessingResult
}.

(** ** The strategies

    [processOrderAt currentDate product] is the body of the strategy's
    [processOrder] once [new Date()] has been read as [currentDate];
    [processOrder] reads the clock and runs it. *)

Module NormalProductStrategy.

Definition processOrderAt (product : Product) : ProductProcessingResult :=
  if available product >? 0 then
    {| shouldUpdateStock := true;
       updatedProduct :=
         Some (withAvailable (Number.minus (available product) 1)
                 (spread product));
       notificationAction := None |}
  else if leadTime product >? 0 then
    {| shouldUpdateStock := true;
       updatedProduct :=
         Some (withLeadTime (leadTime product) (spread product));
       notificationAction :=
         Some (sendDelayNotification (leadTime product) (name product)) |}
  else
    {| shouldUpdateStock := false;
       updatedProduct := None;
       notificationAction := None |}.

Definition processOrder (product : Product) : M ProductProcessingResult :=
  ret (processOrderAt product).

Definition new : IProductStrategy := Strategy processOrder.

End NormalProductStrategy.

Module SeasonalProductStrategy.

Definition millisecondsPerDay : Z := 1000 * 60 * 60 * 24.

Definition processOrderAt (currentDate : Date) (product : Product)
  : ProductProcessingResult :=
  if (currentDate >? toNumber (seasonStartDate product))
     && (currentDate <? toNumber (seasonEndDate product))
     && (available product >? 0)
  then
    {| shouldUpdateStock := true;
       updatedProduct :=
         Some (withAvailable (Number.minus (available product) 1)
                 (spread product));
       notificationAction := None |}
  else if available product =? 0 then
    let restockDate : DateObject :=
      newDateAt
        (Number.plus currentDate
           (Number.times (leadTime product) millisecondsPerDay)) in
    if laterThan restockDate (toNumber (seasonEndDate product)) then
      {| shouldUpdateStock := true;
         updatedProduct := Some (withAvailable 0 (spread product));
         notificationAction :=
           Some (sendOutOfStockNotification (name product)) |}
    else
      {| shouldUpdateStock := true;
         updatedProduct :=
           Some (withLeadTime (leadTime product) (spread product));
         notificationAction :=
           Some (sendDelayNotification (leadTime product) (name product)) |}
  else if toNumber (seasonStartDate product) >? currentDate then
    {| shouldUpdateStock := false;
       updatedProduct := None;
       notificationAction :=
         Some (sendOutOfStockNotification (name product)) |}
  else
    {| shouldUpdateStock := false;
       updatedProduct := None;
       notificationAction := None |}.

Definition processOrder (product : Product) : M ProductProcessingResult :=
  currentDate <- newDate ;;
  ret (processOrderAt currentDate product).

Definition new : IProductStrategy := Strategy processOrder.

End SeasonalProductStrategy.

Module ExpirableProductStrategy.

Definition processOrderAt (currentDate : Date) (product : Product)
  : ProductProcessingResult :=
  if (available product >? 0)
     && (toNumber (expiryDate product) >? currentDate)
  then
    {| shouldUpdateStock := true;
       updatedProduct :=
         Some (withAvailable (Number.minus (available product) 1)
                 (spread product));
       notificationAction := None |}
  else
    {| shouldUpdateStock := true;
       updatedProduct := Some (withAvailable 0 (spread product));
       notificationAction :=
         Some (sendExpirationNotification (name product)
                 (expiryDate product)) |}.

Definition processOrder (product : Product) : M ProductProcessingResult :=
  currentDate <- newDate ;;
  ret (processOrderAt currentDate product).

Definition new : IProductStrategy := Strategy processOrder.

End ExpirableProductStrategy.

(** ** The strategy factory *)

Module ProductStrategyFactory.

Definition createStrategy (productType : string) : M IProductStrategy :=
  if String.eqb productType "NORMAL" then
    ret NormalProductStrategy.new
  else if String.eqb productType "SEASONAL" then
    ret SeasonalProductStrategy.new
  else if String.eqb productType "EXPIRABLE" then
    ret ExpirableProductStrategy.new
  else
    throw (Error (String.append "Unknown product type: " productType)).

End ProductStrategyFactory.

(** ** The order processor *)

Module OrderProcessingService.

Definition processProductOrder (product : Product) : M unit :=
  strategy <- ProductStrategyFactory.createStrategy (type product) ;;
  result <- processOrder strategy product ;;
  match shouldUpdateStock result, updatedProduct result with
  | true, Some values => update values (id product)
  | _, _ => ret tt
  end ;;
  match notificationAction result with
  | Some call => invoke call
  | None => ret tt
  end.

Fixpoint processOrder (orderProducts : list Product) : M unit :=
  match orderProducts with
  | [] => ret tt
  | product :: rest =>
      processProductOrder product ;;
      processOrder rest
  end.

End OrderProcessingService.

(** ** Reference definitions and predicates of the specification *)

(** The outcome "decrement [available] by one, request the stock update, no
    notification". *)
Definition decremented (product : Product) : ProductProcessingResult :=
  {| shouldUpdateStock := true;
     updatedProduct :=
       Some (withAvailable (available product - 1) (spread product));
     notificationAction := None |}.

(** The outcome "nothing to write, nobody to tell". *)
Definition untouched : ProductProcessingResult :=
  {| shouldUpdateStock := false;
     updatedProduct := None;
     notificationAction := None |}.

(** Section 4.2 in its own words.  Case 2 keeps [available] at 0 and carries
    the unchanged [leadTime]; case 3 is the silent one. *)
Definition normalReference (product : Product) : ProductProcessingResult :=
  if 0 <? available product then
    decremented product
  else if 0 <? leadTime product then
    {| shouldUpdateStock := true;
       updatedProduct :=
         Some (withLeadTime (leadTime product)
                 (withAvailable 0 (spread product)));
       notificationAction :=
         Some (sendDelayNotification (leadTime product) (name product)) |}
  else
    untouched.

(** Section 4.4 in its own words, for a product whose expiry date is
    [expiry]: sold while in stock and not expired, otherwise written off. *)
Definition expirableReference (now expiry : Date) (product : Product)
  : ProductProcessingResult :=
  if (0 <? available product) && (now <? expiry) then
    decremented product
  else
    {| shouldUpdateStock := true;
       updatedProduct := Some (withAvailable 0 (spread product));
       notificationAction :=
         Some (sendExpirationNotification (name product) (Some expiry)) |}.

(** A result sells one unit of [product] from stock: it requests a stock
    update whose [available] is the product's minus one, and notifies nobody. *)
Definition SoldFromStock (product : Product)
  (result : ProductProcessingResult) : Prop :=
  shouldUpdateStock result = true /\
  (exists values,
      updatedProduct result = Some values /\
      Partial.available values = Some (available product - 1)) /\
  notificationAction result = None.

(** A result reports [product] as unavailable without touching the stock: no
    stock update is requested and the out-of-stock notification carries the
    product's name. *)
Definition ReportedUnavailable (product : Product)
  (result : ProductProcessingResult) : Prop :=
  shouldUpdateStock result = false /\
  notificationAction result =
    Some (sendOutOfStockNotification (name product)).

(** A result keeps the stock within bounds: when it requests a stock update
    and the update carries [available], the carried value lies between 0 and
    the product's own stock. *)
Definition StockBounded (product : Product)
  (result : ProductProcessingResult) : Prop :=
  shouldUpdateStock result = true ->
  forall values a,
    updatedProduct result = Some values ->
    Partial.available values = Some a ->
    0 <= a <= available product.

(** The results a strategy can answer for [product]: the body of one of the
    three strategies, at some reading of the clock. *)
Inductive Answer (product : Product) : ProductProcessingResult -> Prop :=
| NormalAnswer :
    Answer product (NormalProductStrategy.processOrderAt product)
| SeasonalAnswer (currentDate : Date) :
    Answer product
      (SeasonalProductStrategy.processOrderAt currentDate product)
| ExpirableAnswer (currentDate : Date) :
    Answer product
      (ExpirableProductStrategy.processOrderAt currentDate product).

(** ** The events of one product *)

(** The stock update a result asks for, if any: the guard of
    [processProductOrder], [shouldUpdateStock && updatedProduct]. *)
Definition updateStep (product : Product) (result : ProductProcessingResult)
  : list Event :=
  match shouldUpdateStock result, updatedProduct result with
  | true, Some values => [DbUpdate values (id product)]
  | _, _ => []
  end.

Definition notifyStep (result : ProductProcessingResult) : list Event :=
  match notificationAction result with
  | Some call => [Notified call]
  | None => []
  end.

(** What processing one product adds to the log once its strategy answered
    [result]: the stock update first, the notification after it. *)
Definition effects (product : Product) (result : ProductProcessingResult)
  : list Event :=
  updateStep product result ++ notifyStep result.

(** The world after the events of [effects product result] happened in [w]. *)
Definition settle (product : Product) (result : ProductProcessingResult)
  (w : World) : World :=
  {| database :=
       match shouldUpdateStock result, updatedProduct result with
       | true, Some values => updateWhereId values (id product) (database w)
       | _, _ => database w
       end;
     clock := clock w;
     ticks := ticks w;
     log := log w ++ effects product result |}.

(** [Batch w answered w']: from the world [w], the products of [answered]
    were processed one after the other, each with the result listed next to
    it.  The strategy of a product is made and evaluated in the world its
    predecessors left, with all their effects in it; the effects of its
    result are settled before the next product is looked at; [w'] is the
    world after the last one. *)
Inductive Batch
  : World -> list (Product * ProductProcessingResult) -> World -> Prop :=
| BatchDone (w : World) : Batch w [] w
| BatchStep (w w1 w' : World) (product : Product)
    (strategy : IProductStrategy) (result : ProductProcessingResult)
    (answered : list (Product * ProductProcessingResult)) :
    ProductStrategyFactory.createStrategy (type product) w =
      (w, Returned strategy) ->
    processOrder strategy product w = (w1, Returned result) ->
    Batch (settle product result w1) answered w' ->
    Batch w ((product, result) :: answered) w'.

(** The message of the error thrown for a type tag without a strategy. *)
Definition unknownProductType (productType : string) : JsError :=
  Error (String.append "Unknown product type: " productType).

(** ** Vocabulary for the table and the log *)

(** [product] with its stock replaced by [a], every other field kept. *)
Definition withStock (a : Z) (product : Product) : Product :=
  {| id := id product;
     leadTime := leadTime product;
     available := a;
     type := type product;
     name := name product;
     expiryDate := expiryDate product;
     seasonStartDate := seasonStartDate product;
     seasonEndDate := seasonEndDate product |}.

(** The type tags the [switch] of [createStrategy] has a case for. *)
Definition supported (productType : string) : bool :=
  String.eqb productType "NORMAL"
  || String.eqb productType "SEASONAL"
  || String.eqb productType "EXPIRABLE".

Definition isUpdate (e : Event) : bool :=
  match e with
  | DbUpdate _ _ => true
  | Notified _ => false
  end.

Definition isNotification (e : Event) : bool :=
  match e with
  | DbUpdate _ _ => false
  | Notified _ => true
  end.

(** ** Fixtures, after the unit tests *)

Definition day : Z := 24 * 60 * 60 * 1000.

(** The instant the fixtures are relative to. *)
Definition today : Date := 1700000000000.

Definition usbCable (stock lead : Z) : Product :=
  {| id := 1; leadTime := lead; available := stock; type := "NORMAL";
     name := "USB Cable"; expiryDate := None;
     seasonStartDate := None; seasonEndDate := None |}.

Definition watermelon (stock lead : Z) (daysLeft : Z) : Product :=
  {| id := 1; leadTime := lead; available := stock; type := "SEASONAL";
     name := "Watermelon"; expiryDate := None;
     seasonStartDate := Some (today - 10 * day);
     seasonEndDate := Some (today + daysLeft * day) |}.

Definition grapes (stock : Z) : Product :=
  {| id := 1; leadTime := 15; available := stock; type := "SEASONAL";
     name := "Grapes"; expiryDate := None;
     seasonStartDate := Some (today + 30 * day);
     seasonEndDate := Some (today + 90 * day) |}.

Definition milk (key stock : Z) (expiry : Date) : Product :=
  {| id := key; leadTime := 15; available := stock; type := "EXPIRABLE";
     name := "Milk"; expiryDate := Some expiry;
     seasonStartDate := None; seasonEndDate := None |}.

(** An EXPIRABLE product whose expiry date was never filled in. *)
Definition undatedMilk : Product :=
  {| id := 4; leadTime := 15; available := 6; type := "EXPIRABLE";
     name := "Milk"; expiryDate := None;
     seasonStartDate := None; seasonEndDate := None |}.

(** A product whose type tag has no strategy. *)
Definition giftCard : Product :=
  {| id := 3; leadTime := 0; available := 7; type := "GIFTCARD";
     name := "Gift Card"; expiryDate := None;
     seasonStartDate := None; seasonEndDate := None |}.

(** A world whose table holds the given rows, with a clock that starts at
    [today] and advances by one millisecond per reading. *)
Definition worldOf (rows : list Product) : World :=
  {| database := rows;
     clock := fun n => today + Z.of_nat n;
     ticks := 0;
     log := [] |}.

(** * Properties *)

(** ** Tactics and facts shared by the proofs *)

(** Decide every integer comparison in the goal, keeping the facts. *)
Ltac compare :=
  repeat match goal with
    | |- context [laterThan ?d ?b] => destruct (laterThan d b) eqn:?
    | |- context [?a >? ?b] => destruct (Z.gtb_spec a b)
    | |- context [?a <? ?b] => destruct (Z.ltb_spec a b)
    | |- context [?a =? ?b] => destruct (Z.eqb_spec a b)
    end;
  cbn [andb orb negb].

(** ** Facts about JavaScript numbers *)

(** Above [2 ^ 53] the rounded value is a multiple of the spacing, the one
    just below or, unless the integer is already a multiple, just above. *)
Lemma roundToDouble_big z :
  2 ^ 53 <= Z.abs z ->
  0 < 2 ^ (Z.log2 (Z.abs z) - 52) /\
  exists q',
    Number.roundToDouble z =
      Z.sgn z * (q' * 2 ^ (Z.log2 (Z.abs z) - 52)) /\
    (q' = Z.abs z / 2 ^ (Z.log2 (Z.abs z) - 52) \/
     (q' = Z.abs z / 2 ^ (Z.log2 (Z.abs z) - 52) + 1 /\
      Z.abs z mod 2 ^ (Z.log2 (Z.abs z) - 52) <> 0)).
Proof.
  intros Hbig.
  assert (53 <= Z.log2 (Z.abs z)) as Hlog.
  { apply Z.log2_le_pow2; lia. }
  assert (0 < 2 ^ (Z.log2 (Z.abs z) - 52)) as Hulp.
  { apply Z.pow_pos_nonneg; lia. }
  split; [exact Hulp|].
  unfold Number.roundToDouble.
  destruct (Z.ltb_spec (Z.abs z) (2 ^ 53)) as [Hsmall|_]; [lia|].
  cbv zeta.
  set (u := 2 ^ (Z.log2 (Z.abs z) - 52)) in *.
  pose proof (Z.mod_pos_bound (Z.abs z) u Hulp) as Hr.
  destruct (Z.ltb_spec (2 * (Z.abs z mod u)) u) as [Hlow|Hhigh].
  - eexists; split; [reflexivity|]. left; reflexivity.
  - destruct (Z.ltb_spec u (2 * (Z.abs z mod u))) as [Hup|Htie].
    + eexists; split; [reflexivity|]. right; split; [reflexivity|lia].
    + destruct (Z.even (Z.abs z / u)).
      * eexists; split; [reflexivity|]. left; reflexivity.
      * eexists; split; [reflexivity|]. right; split; [reflexivity|lia].
Qed.

Lemma roundToDouble_exact z :
  2 ^ 53 <= Z.abs z ->
  Z.abs z mod 2 ^ (Z.log2 (Z.abs z) - 52) = 0 ->
  Number.roundToDouble z = z.
Proof.
  intros Hbig Hmod.
  destruct (roundToDouble_big z Hbig) as (Hulp & q' & -> & Hq).
  destruct Hq as [-> | [_ Hne]]; [|contradiction].
  rewrite Z.mul_comm with (n := Z.abs z / _).
  rewrite <- Z_div_exact_full_2 by (try lia; exact Hmod).
  rewrite Z.mul_comm. apply Z.abs_sgn.
Qed.

(** Every integer up to [2 ^ 53] in magnitude is a number. *)
Lemma roundToDouble_small z :
  Z.abs z <= 2 ^ 53 -> Number.roundToDouble z = z.
Proof.
  intros Hz.
  destruct (Z.lt_ge_cases (Z.abs z) (2 ^ 53)) as [Hlt|Hge].
  - unfold Number.roundToDouble.
    destruct (Z.ltb_spec (Z.abs z) (2 ^ 53)); [reflexivity|lia].
  - apply roundToDouble_exact; [exact Hge|].
    replace (Z.abs z) with (2 ^ 53) by lia. reflexivity.
Qed.

Lemma roundToDouble_nonneg z : 0 <= z -> 0 <= Number.roundToDouble z.
Proof.
  intros Hz.
  destruct (Z.lt_ge_cases (Z.abs z) (2 ^ 53)) as [Hlt|Hge].
  - rewrite roundToDouble_small by lia. exact Hz.
  - destruct (roundToDouble_big z Hge) as (Hulp & q' & -> & Hq).
    assert (0 <= Z.abs z / 2 ^ (Z.log2 (Z.abs z) - 52)).
    { apply Z.div_pos; lia. }
    assert (0 <= Z.sgn z) by lia.
    destruct Hq as [-> | [-> _]]; nia.
Qed.

(** Rounding never passes a number that lies above. *)
Lemma roundToDouble_below z y :
  0 <= z <= y ->
  Number.roundToDouble y = y ->
  Number.roundToDouble z <= y.
Proof.
  intros [Hz Hzy] Hy.
  destruct (Z.lt_ge_cases (Z.abs z) (2 ^ 53)) as [Hlt|Hge].
  - rewrite roundToDouble_small by lia. exact Hzy.
  - assert (Z.abs z = z) as Haz by lia.
    assert (Z.abs y = y) as Hay by lia.
    assert (2 ^ 53 <= Z.abs y) as Hgey by lia.
    destruct (roundToDouble_big z Hge) as (Huz & qz & -> & Hqz).
    destruct (roundToDouble_big y Hgey) as (Huy & qy & Hry & _).
    rewrite Haz in *. rewrite Hay in *.
    assert (Z.sgn z = 1) as -> by (apply Z.sgn_pos; lia).
    assert (Z.sgn y = 1) as Hsy by (apply Z.sgn_pos; lia).
    rewrite Hy, Hsy, Z.mul_1_l in Hry.
    rewrite Z.mul_1_l.
    set (uz := 2 ^ (Z.log2 z - 52)) in *.
    set (uy := 2 ^ (Z.log2 y - 52)) in *.
    assert (53 <= Z.log2 z) as Hlz by (apply Z.log2_le_pow2; lia).
    pose proof (Z.log2_le_mono z y Hzy) as Hmono.
    assert (uy = uz * 2 ^ (Z.log2 y - Z.log2 z)) as Huu.
    { unfold uy, uz. rewrite <- Z.pow_add_r by lia. f_equal. lia. }
    pose proof (Z.div_mod z uz ltac:(lia)) as Hdm.
    pose proof (Z.mod_pos_bound z uz Huz) as Hr.
    set (c := 2 ^ (Z.log2 y - Z.log2 z)) in *.
    assert (y = (qy * c) * uz) as Hyk.
    { transitivity (qy * uy); [exact Hry|rewrite Huu; ring]. }
    set (k := qy * c) in *.
    destruct Hqz as [-> | [-> Hne]].
    + nia.
    + assert (z / uz < k) by nia. nia.
Qed.

(** A multiple of 1024 below [2 ^ 63] in magnitude is a number: the
    spacing of the doubles there is at most 1024. *)
Lemma roundToDouble_multiple_of_1024 z :
  Z.abs z < 2 ^ 63 ->
  z mod 1024 = 0 ->
  Number.roundToDouble z = z.
Proof.
  intros Hrange Hmultiple.
  destruct (Z.lt_ge_cases (Z.abs z) (2 ^ 53)) as [Hlt|Hge].
  - apply roundToDouble_small; lia.
  - apply roundToDouble_exact; [exact Hge|].
    assert (53 <= Z.log2 (Z.abs z)) as Hlow
      by (apply Z.log2_le_pow2; lia).
    assert (Z.log2 (Z.abs z) < 63) as Hhigh
      by (apply Z.log2_lt_pow2; lia).
    apply Z.mod_divide; [apply Z.pow_nonzero; lia|].
    apply Z.divide_trans with 1024.
    + exists (2 ^ (10 - (Z.log2 (Z.abs z) - 52))).
      rewrite <- Z.pow_add_r by lia.
      replace (10 - (Z.log2 (Z.abs z) - 52) + (Z.log2 (Z.abs z) - 52))
        with 10 by lia.
      reflexivity.
    + apply Z.divide_abs_r. apply Z.mod_divide; [discriminate|].
      exact Hmultiple.
Qed.

(** An operator is exact when its exact result is a number. *)
Lemma arith_exact op a b :
  Number.roundToDouble (op a b) = op a b ->
  Number.arith op a b = op a b.
Proof.
  intros Hexact. unfold Number.arith.
  destruct (Number.isNumber a && Number.isNumber b);
    [exact Hexact|reflexivity].
Qed.

(** Up to [2 ^ 53], taking one away is exact. *)
Lemma minus_one_exact x :
  0 < x <= 2 ^ 53 -> Number.minus x 1 = x - 1.
Proof.
  intros Hx. apply arith_exact, roundToDouble_small. lia.
Qed.

(** Taking one away from a positive stock never goes below zero and never
    above the stock, rounded or not. *)
Lemma minus_one_bounds x :
  0 < x -> 0 <= Number.minus x 1 <= x.
Proof.
  intros Hx. unfold Number.minus, Number.arith, Number.isNumber.
  destruct (Z.eqb_spec (Number.roundToDouble x) x) as [Hnumber|_];
    cbn [andb]; [|lia].
  destruct (Number.roundToDouble 1 =? 1); [|lia].
  split.
  - apply roundToDouble_nonneg. lia.
  - apply roundToDouble_below; [lia|exact Hnumber].
Qed.

(** Within the range of [Date] the restock instant is computed exactly. *)
Lemma restock_instant_exact now lead :
  Z.abs now <= maxTime ->
  Z.abs (now + lead * 86400000) <= maxTime ->
  Number.plus now (Number.times lead 86400000) = now + lead * 86400000.
Proof.
  unfold maxTime. intros Hnow Hrestock.
  assert (Number.times lead 86400000 = lead * 86400000) as ->.
  { apply arith_exact, roundToDouble_multiple_of_1024.
    - change (2 ^ 63) with 9223372036854775808. lia.
    - replace (lead * 86400000) with (lead * 84375 * 1024) by ring.
      apply Z.mod_mul. discriminate. }
  apply arith_exact, roundToDouble_small.
  change (2 ^ 53) with 9007199254740992. lia.
Qed.

(** A restock date within the range of [Date] is compared as the instant
    it stands for. *)
Lemma restock_date_later now lead bound :
  Z.abs now <= maxTime ->
  Z.abs (now + lead * 86400000) <= maxTime ->
  laterThan
    (newDateAt (Number.plus now (Number.times lead 86400000))) bound =
    (now + lead * 86400000 >? bound).
Proof.
  intros Hnow Hrestock.
  rewrite (restock_instant_exact now lead Hnow Hrestock).
  unfold newDateAt.
  destruct (Z.leb_spec (Z.abs (now + lead * 86400000)) maxTime);
    [reflexivity|lia].
Qed.

Lemma millisecondsPerDay_value :
  SeasonalProductStrategy.millisecondsPerDay = 86400000.
Proof. reflexivity. Qed.

Lemma spread_id product : Partial.id (spread product) = Some (id product).
Proof. reflexivity. Qed.

Lemma normal_stock_bounded product :
  0 <= available product ->
  StockBounded product (NormalProductStrategy.processOrderAt product).
Proof.
  intros Hstock _ values a.
  unfold NormalProductStrategy.processOrderAt.
  compare; cbn; intros Hvalues Ha; try discriminate;
    injection Hvalues as <-; cbn in Ha; injection Ha as <-;
    try lia; apply minus_one_bounds; lia.
Qed.

Lemma seasonal_stock_bounded currentDate product :
  0 <= available product ->
  StockBounded product
    (SeasonalProductStrategy.processOrderAt currentDate product).
Proof.
  intros Hstock _ values a.
  unfold SeasonalProductStrategy.processOrderAt.
  compare; cbn; intros Hvalues Ha; try discriminate;
    injection Hvalues as <-; cbn in Ha; injection Ha as <-;
    try lia; apply minus_one_bounds; lia.
Qed.

Lemma expirable_stock_bounded currentDate product :
  0 <= available product ->
  StockBounded product
    (ExpirableProductStrategy.processOrderAt currentDate product).
Proof.
  intros Hstock _ values a.
  unfold ExpirableProductStrategy.processOrderAt.
  compare; cbn; intros Hvalues Ha; try discriminate;
    injection Hvalues as <-; cbn in Ha; injection Ha as <-;
    try lia; apply minus_one_bounds; lia.
Qed.

(** ** The NORMAL strategy *)

(** C2, counterexample. Beyond [2 ^ 53] the stock is not decremented by
    exactly one: the difference is rounded to the nearest double, and the
    update of a stock of 9007199254740994 carries 9007199254740992. *)
Lemma normal_decrement_is_rounded :
  0 <= available (usbCable 9007199254740994 15) /\
  0 <= leadTime (usbCable 9007199254740994 15) /\
  updatedProduct
    (NormalProductStrategy.processOrderAt (usbCable 9007199254740994 15)) =
    Some (withAvailable 9007199254740992
            (spread (usbCable 9007199254740994 15))) /\
  NormalProductStrategy.processOrderAt (usbCable 9007199254740994 15) <>
    normalReference (usbCable 9007199254740994 15).
Proof.
  split; [discriminate|]. split; [discriminate|].
  split; [vm_compute; reflexivity|].
  intros Hequal. apply (f_equal updatedProduct) in Hequal.
  vm_compute in Hequal. discriminate Hequal.
Qed.

(** C2, amended. The NORMAL strategy equals the three-case reference of
    section 4.2 on every product of the data model whose stock is at most
    [2 ^ 53] ([0 <= available <= 2 ^ 53], [0 <= leadTime]): in stock it
    decrements [available] by exactly one without notification; out of
    stock with a lead time it requests an update that carries the unchanged
    [leadTime] with [available] still 0 and a delay notification with that
    [leadTime] and the [name]; and it stays silent, with no update, exactly
    when [available] and [leadTime] are both 0. *)
Theorem normal_strategy_equals_reference (product : Product) :
  0 <= available product <= 2 ^ 53 ->
  0 <= leadTime product ->
  NormalProductStrategy.processOrderAt product = normalReference product /\
  (0 < available product ->
     NormalProductStrategy.processOrderAt product = decremented product) /\
  (available product = 0 -> 0 < leadTime product ->
     exists values,
       NormalProductStrategy.processOrderAt product =
         {| shouldUpdateStock := true;
            updatedProduct := Some values;
            notificationAction :=
              Some (sendDelayNotification (leadTime product) (name product)) |}
       /\ Partial.available values = Some 0
       /\ Partial.leadTime values = Some (leadTime product)) /\
  (NormalProductStrategy.processOrderAt product = untouched <->
     available product = 0 /\ leadTime product = 0).
Proof.
  intros Hstock Hlead.
  assert (0 < available product ->
          Number.minus (available product) 1 = available product - 1)
    as Hexact.
  { intros Hpos. apply minus_one_exact. lia. }
  unfold NormalProductStrategy.processOrderAt, normalReference, decremented,
    untouched.
  split; [|split; [|split; [|split]]].
  - compare; try lia; rewrite ?Hexact by lia; try reflexivity.
    assert (available product = 0) as Hzero by lia.
    unfold withLeadTime, withAvailable, spread; cbn.
    rewrite Hzero. reflexivity.
  - intros Hpos. compare; try lia; rewrite Hexact by lia; reflexivity.
  - intros Hzero Hpos. compare; try lia.
    eexists; split; [reflexivity|]. cbn. rewrite Hzero. split; reflexivity.
  - compare; try discriminate; lia.
  - intros [Hzero Hnone]. compare; try lia; reflexivity.
Qed.

Lemma normal_strategy_equals_reference_witness :
  0 <= available (usbCable 30 15) <= 2 ^ 53 /\
  0 <= leadTime (usbCable 30 15) /\
  NormalProductStrategy.processOrderAt (usbCable 30 15) =
    normalReference (usbCable 30 15).
Proof.
  assert (0 <= available (usbCable 30 15) <= 2 ^ 53) as Hstock
    by (split; discriminate).
  assert (0 <= leadTime (usbCable 30 15)) as Hlead by discriminate.
  split; [exact Hstock|]. split; [exact Hlead|].
  exact (proj1 (normal_strategy_equals_reference (usbCable 30 15)
                  Hstock Hlead)).
Defined.

(** ** The EXPIRABLE strategy *)

(** C3, counterexample. Beyond [2 ^ 53] a fresh product in stock is not
    decremented by exactly one: the update of a stock of 9007199254740994
    carries 9007199254740992. *)
Lemma expirable_decrement_is_rounded :
  expiryDate (milk 1 9007199254740994 (today + 10 * day)) =
    Some (today + 10 * day) /\
  0 < available (milk 1 9007199254740994 (today + 10 * day)) /\
  today + 10 * day > today /\
  updatedProduct
    (ExpirableProductStrategy.processOrderAt today
       (milk 1 9007199254740994 (today + 10 * day))) =
    Some (withAvailable 9007199254740992
            (spread (milk 1 9007199254740994 (today + 10 * day)))) /\
  ExpirableProductStrategy.processOrderAt today
    (milk 1 9007199254740994 (today + 10 * day)) <>
    expirableReference today (today + 10 * day)
      (milk 1 9007199254740994 (today + 10 * day)).
Proof.
  split; [reflexivity|]. split; [reflexivity|]. split; [reflexivity|].
  split; [vm_compute; reflexivity|].
  intros Hequal. apply (f_equal updatedProduct) in Hequal.
  vm_compute in Hequal. discriminate Hequal.
Qed.

(** C3, amended. The EXPIRABLE strategy equals the two-case reference of
    section 4.4 on every product with a non-null [expiryDate] whose stock
    is at most [2 ^ 53]: in stock and not yet expired it decrements
    [available] by exactly one without notification; in every other case
    (no stock, or expired even with stock) it requests an update that
    forces [available] to 0 and attaches the expiration notification with
    the product's [name] and [expiryDate]. *)
Theorem expirable_strategy_equals_reference
  (now expiry : Date) (product : Product) :
  expiryDate product = Some expiry ->
  available product <= 2 ^ 53 ->
  ExpirableProductStrategy.processOrderAt now product =
    expirableReference now expiry product /\
  (0 < available product -> now < expiry ->
     ExpirableProductStrategy.processOrderAt now product =
       decremented product) /\
  (available product <= 0 \/ expiry <= now ->
     ExpirableProductStrategy.processOrderAt now product =
       {| shouldUpdateStock := true;
          updatedProduct := Some (withAvailable 0 (spread product));
          notificationAction :=
            Some (sendExpirationNotification (name product)
                    (expiryDate product)) |}).
Proof.
  intros Hexpiry Hsafe.
  assert (0 < available product ->
          Number.minus (available product) 1 = available product - 1)
    as Hexact.
  { intros Hpos. apply minus_one_exact. lia. }
  unfold ExpirableProductStrategy.processOrderAt, expirableReference,
    decremented.
  rewrite Hexpiry; cbn [toNumber].
  split; [|split].
  - compare; try lia; rewrite ?Hexact by lia; reflexivity.
  - intros Hstock Hfresh.
    compare; try lia; rewrite Hexact by lia; reflexivity.
  - intros Hother. compare; try lia; reflexivity.
Qed.

Lemma expirable_strategy_equals_reference_witness :
  expiryDate (milk 1 6 (today - 2 * day)) = Some (today - 2 * day) /\
  available (milk 1 6 (today - 2 * day)) <= 2 ^ 53 /\
  ExpirableProductStrategy.processOrderAt today (milk 1 6 (today - 2 * day)) =
    expirableReference today (today - 2 * day) (milk 1 6 (today - 2 * day)).
Proof.
  assert (available (milk 1 6 (today - 2 * day)) <= 2 ^ 53) as Hsafe
    by discriminate.
  split; [reflexivity|]. split; [exact Hsafe|].
  exact (proj1 (expirable_strategy_equals_reference today (today - 2 * day)
                  (milk 1 6 (today - 2 * day)) eq_refl Hsafe)).
Defined.

(** ** The SEASONAL strategy *)

(** C4, counterexample. A restock instant beyond the range of [Date] is no
    date: with a lead time of 100000000 days [now + leadTime] days lies
    after the season end, yet [new Date(...)] is invalid, the comparison
    with the season end is false, and the strategy announces a delay
    instead of out-of-stock. *)
Lemma seasonal_restock_beyond_date_range :
  seasonEndDate (watermelon 0 100000000 20) = Some (today + 20 * day) /\
  available (watermelon 0 100000000 20) = 0 /\
  today + leadTime (watermelon 0 100000000 20) * 86400000
    > today + 20 * day /\
  notificationAction
    (SeasonalProductStrategy.processOrderAt today
       (watermelon 0 100000000 20)) =
    Some (sendDelayNotification 100000000 "Watermelon") /\
  SeasonalProductStrategy.processOrderAt today (watermelon 0 100000000 20) <>
    {| shouldUpdateStock := true;
       updatedProduct :=
         Some (withAvailable 0 (spread (watermelon 0 100000000 20)));
       notificationAction :=
         Some (sendOutOfStockNotification "Watermelon") |}.
Proof.
  split; [reflexivity|]. split; [reflexivity|]. split; [reflexivity|].
  split; [vm_compute; reflexivity|].
  intros Hequal. apply (f_equal notificationAction) in Hequal.
  vm_compute in Hequal. discriminate Hequal.
Qed.

(** C4, amended. A SEASONAL product with [available = 0] (which therefore
    never takes the in-season in-stock path), processed at an instant [now]
    such that [now] and [restockDate = now + leadTime] days are within the
    range of [Date] (at most 8640000000000000 ms from the epoch): if
    [restockDate > seasonEndDate] the strategy requests a stock update that
    leaves [available] at 0 and attaches the out-of-stock notification with
    the product's name; otherwise it requests a stock update carrying the
    unchanged [leadTime] and attaches the delay notification with that
    [leadTime] and the name. *)
Theorem seasonal_out_of_stock_by_restock_date
  (now seasonEnd : Date) (product : Product) :
  seasonEndDate product = Some seasonEnd ->
  available product = 0 ->
  Z.abs now <= maxTime ->
  Z.abs (now + leadTime product * 86400000) <= maxTime ->
  let restockDate := now + leadTime product * 86400000 in
  (restockDate > seasonEnd ->
     SeasonalProductStrategy.processOrderAt now product =
       {| shouldUpdateStock := true;
          updatedProduct := Some (withAvailable 0 (spread product));
          notificationAction :=
            Some (sendOutOfStockNotification (name product)) |}) /\
  (restockDate <= seasonEnd ->
     SeasonalProductStrategy.processOrderAt now product =
       {| shouldUpdateStock := true;
          updatedProduct :=
            Some (withLeadTime (leadTime product) (spread product));
          notificationAction :=
            Some (sendDelayNotification (leadTime product)
                    (name product)) |}).
Proof.
  intros Hend Hzero Hnow Hrange restockDate. subst restockDate.
  unfold SeasonalProductStrategy.processOrderAt.
  rewrite millisecondsPerDay_value, Hend, Hzero; cbn [toNumber].
  rewrite (restock_date_later now (leadTime product) seasonEnd Hnow Hrange).
  split; intros Hrestock; compare; try lia; reflexivity.
Qed.

Lemma seasonal_out_of_stock_by_restock_date_witness :
  seasonEndDate (watermelon 0 30 20) = Some (today + 20 * day) /\
  available (watermelon 0 30 20) = 0 /\
  Z.abs today <= maxTime /\
  Z.abs (today + leadTime (watermelon 0 30 20) * 86400000) <= maxTime /\
  today + leadTime (watermelon 0 30 20) * 86400000 > today + 20 * day /\
  SeasonalProductStrategy.processOrderAt today (watermelon 0 30 20) =
    {| shouldUpdateStock := true;
       updatedProduct := Some (withAvailable 0 (spread (watermelon 0 30 20)));
       notificationAction := Some (sendOutOfStockNotification "Watermelon") |}.
Proof.
  assert (Z.abs today <= maxTime) as Hnow by discriminate.
  assert (Z.abs (today + leadTime (watermelon 0 30 20) * 86400000)
          <= maxTime) as Hrange by discriminate.
  split; [reflexivity|]. split; [reflexivity|].
  split; [exact Hnow|]. split; [exact Hrange|]. split; [reflexivity|].
  exact (proj1 (seasonal_out_of_stock_by_restock_date today
                  (today + 20 * day) (watermelon 0 30 20) eq_refl eq_refl
                  Hnow Hrange)
           eq_refl).
Defined.

(** C5, counterexample. Beyond [2 ^ 53] a product strictly inside its
    season is not decremented by exactly one: the update of a stock of
    9007199254740994 carries 9007199254740992. *)
Lemma seasonal_decrement_is_rounded :
  seasonStartDate (watermelon 9007199254740994 15 50) =
    Some (today - 10 * day) /\
  seasonEndDate (watermelon 9007199254740994 15 50) =
    Some (today + 50 * day) /\
  0 < available (watermelon 9007199254740994 15 50) /\
  today - 10 * day < today < today + 50 * day /\
  updatedProduct
    (SeasonalProductStrategy.processOrderAt today
       (watermelon 9007199254740994 15 50)) =
    Some (withAvailable 9007199254740992
            (spread (watermelon 9007199254740994 15 50))) /\
  ~ SoldFromStock (watermelon 9007199254740994 15 50)
      (SeasonalProductStrategy.processOrderAt today
         (watermelon 9007199254740994 15 50)).
Proof.
  split; [reflexivity|]. split; [reflexivity|]. split; [reflexivity|].
  split; [split; reflexivity|].
  split; [vm_compute; reflexivity|].
  intros (_ & (values & Hvalues & Hstock) & _).
  vm_compute in Hvalues. injection Hvalues as <-.
  vm_compute in Hstock. discriminate Hstock.
Qed.

(** C5, amended. A SEASONAL product with [0 < available <= 2 ^ 53] is sold
    from stock ([available] minus exactly one, stock update, no
    notification) if and only if [seasonStartDate < now < seasonEndDate],
    both comparisons strict; at [now = seasonStartDate] and at
    [now = seasonEndDate] it is out of season and no stock update is
    requested. *)
Theorem seasonal_sold_iff_strictly_in_season
  (now seasonStart seasonEnd : Date) (product : Product) :
  seasonStartDate product = Some seasonStart ->
  seasonEndDate product = Some seasonEnd ->
  0 < available product <= 2 ^ 53 ->
  (SeasonalProductStrategy.processOrderAt now product = decremented product
     <-> seasonStart < now < seasonEnd) /\
  (SoldFromStock product (SeasonalProductStrategy.processOrderAt now product)
     <-> seasonStart < now < seasonEnd) /\
  (now = seasonStart \/ now = seasonEnd ->
     shouldUpdateStock (SeasonalProductStrategy.processOrderAt now product)
       = false).
Proof.
  intros Hstart Hend Hstock.
  unfold SoldFromStock, SeasonalProductStrategy.processOrderAt, decremented.
  rewrite Hstart, Hend; cbn [toNumber].
  rewrite (minus_one_exact (available product) Hstock).
  split; [|split].
  - split.
    + compare; try lia; discriminate.
    + intros Hin. compare; try lia; reflexivity.
  - split.
    + compare; cbn; try lia; intros [Hupdate _]; discriminate.
    + intros Hin. compare; try lia; cbn.
      all: split; [reflexivity|]; split; [|reflexivity].
      all: eexists; split; reflexivity.
  - intros Hedge. compare; try lia; reflexivity.
Qed.

Lemma seasonal_sold_iff_strictly_in_season_witness :
  seasonStartDate (watermelon 5 15 50) = Some (today - 10 * day) /\
  seasonEndDate (watermelon 5 15 50) = Some (today + 50 * day) /\
  0 < available (watermelon 5 15 50) <= 2 ^ 53 /\
  (SoldFromStock (watermelon 5 15 50)
     (SeasonalProductStrategy.processOrderAt today (watermelon 5 15 50))
   <-> today - 10 * day < today < today + 50 * day).
Proof.
  assert (0 < available (watermelon 5 15 50) <= 2 ^ 53) as Hstock
    by (split; [reflexivity|discriminate]).
  split; [reflexivity|]. split; [reflexivity|]. split; [exact Hstock|].
  exact (proj1 (proj2 (seasonal_sold_iff_strictly_in_season today
                         (today - 10 * day) (today + 50 * day)
                         (watermelon 5 15 50) eq_refl eq_refl Hstock))).
Defined.

(** C1, counterexample. Before the season with nothing in stock, the
    out-of-stock branch comes first: the strategy does request a stock
    update, and here it announces a delay, so the product is not just
    reported as unavailable. *)
Lemma seasonal_before_season_without_stock :
  seasonStartDate (grapes 0) = Some (today + 30 * day) /\
  today < today + 30 * day /\
  available (grapes 0) = 0 /\
  shouldUpdateStock
    (SeasonalProductStrategy.processOrderAt today (grapes 0)) = true /\
  notificationAction
    (SeasonalProductStrategy.processOrderAt today (grapes 0)) =
    Some (sendDelayNotification 15 "Grapes") /\
  ~ ReportedUnavailable (grapes 0)
      (SeasonalProductStrategy.processOrderAt today (grapes 0)).
Proof.
  repeat (split; [reflexivity|]).
  intros [Hupdate _]. discriminate Hupdate.
Qed.

(** C1, amended. A SEASONAL product with [now] strictly before
    [seasonStartDate] and [available <> 0] is reported as unavailable: no
    stock update is requested and the out-of-stock notification carries the
    product's name.  With [available = 0] the out-of-stock branch is taken
    first and a stock update is requested. *)
Theorem seasonal_before_season_with_stock
  (now seasonStart : Date) (product : Product) :
  seasonStartDate product = Some seasonStart ->
  now < seasonStart ->
  (available product <> 0 ->
     SeasonalProductStrategy.processOrderAt now product =
       {| shouldUpdateStock := false;
          updatedProduct := None;
          notificationAction :=
            Some (sendOutOfStockNotification (name product)) |}
     /\ ReportedUnavailable product
          (SeasonalProductStrategy.processOrderAt now product)) /\
  (available product = 0 ->
     shouldUpdateStock
       (SeasonalProductStrategy.processOrderAt now product) = true).
Proof.
  intros Hstart Hbefore.
  unfold ReportedUnavailable, SeasonalProductStrategy.processOrderAt.
  rewrite Hstart; cbn [toNumber].
  split.
  - intros Hstock. compare; try lia; cbn; split; try split; reflexivity.
  - intros Hzero. compare; try lia; reflexivity.
Qed.

Lemma seasonal_before_season_with_stock_witness :
  seasonStartDate (grapes 5) = Some (today + 30 * day) /\
  today < today + 30 * day /\
  available (grapes 5) <> 0 /\
  ReportedUnavailable (grapes 5)
    (SeasonalProductStrategy.processOrderAt today (grapes 5)).
Proof.
  split; [reflexivity|]. split; [reflexivity|].
  split; [discriminate|].
  exact (proj2 (proj1 (seasonal_before_season_with_stock today
                         (today + 30 * day) (grapes 5) eq_refl eq_refl)
                  ltac:(discriminate))).
Defined.

(** C6, counterexample. At the very instant the season starts, stock on
    hand is not sold. *)
Lemma seasonal_start_instant_not_sold :
  seasonStartDate (grapes 5) = Some (today + 30 * day) /\
  seasonEndDate (grapes 5) = Some (today + 90 * day) /\
  today + 30 * day < today + 90 * day /\
  0 < available (grapes 5) /\
  SeasonalProductStrategy.processOrderAt (today + 30 * day) (grapes 5) =
    untouched /\
  ~ SoldFromStock (grapes 5)
      (SeasonalProductStrategy.processOrderAt (today + 30 * day) (grapes 5)).
Proof.
  repeat (split; [reflexivity|]).
  intros [Hupdate _]. discriminate Hupdate.
Qed.

(** C6, amended. For a SEASONAL product with [available > 0] and [now] equal
    to [seasonStartDate], the product is not sold from stock: the in-season
    test is strict, the window is the open interval (start, end), and
    processing at the start instant requests no stock update and attaches no
    notification. *)
Theorem seasonal_start_instant_is_out_of_season
  (now : Date) (product : Product) :
  seasonStartDate product = Some now ->
  0 < available product ->
  SeasonalProductStrategy.processOrderAt now product = untouched /\
  ~ SoldFromStock product
      (SeasonalProductStrategy.processOrderAt now product).
Proof.
  intros Hstart Hstock.
  assert (SeasonalProductStrategy.processOrderAt now product = untouched)
    as Hresult.
  { unfold SeasonalProductStrategy.processOrderAt, untouched.
    rewrite Hstart; cbn [toNumber].
    compare; try lia; reflexivity. }
  split; [exact Hresult|].
  rewrite Hresult. intros [Hupdate _]. discriminate Hupdate.
Qed.

Lemma seasonal_start_instant_is_out_of_season_witness :
  seasonStartDate (grapes 5) = Some (today + 30 * day) /\
  0 < available (grapes 5) /\
  SeasonalProductStrategy.processOrderAt (today + 30 * day) (grapes 5) =
    untouched.
Proof.
  split; [reflexivity|]. split; [reflexivity|].
  exact (proj1 (seasonal_start_instant_is_out_of_season (today + 30 * day)
                  (grapes 5) eq_refl eq_refl)).
Defined.

(** ** Running the strategies and the factory *)

Lemma normal_processOrder_run product w :
  processOrder NormalProductStrategy.new product w =
    (w, Returned (NormalProductStrategy.processOrderAt product)).
Proof. reflexivity. Qed.

Lemma seasonal_processOrder_run product w :
  processOrder SeasonalProductStrategy.new product w =
    (fst (newDate w),
     Returned (SeasonalProductStrategy.processOrderAt
                 (clock w (ticks w)) product)).
Proof. reflexivity. Qed.

Lemma expirable_processOrder_run product w :
  processOrder ExpirableProductStrategy.new product w =
    (fst (newDate w),
     Returned (ExpirableProductStrategy.processOrderAt
                 (clock w (ticks w)) product)).
Proof. reflexivity. Qed.

(** The factory touches nothing; it returns one of the three strategies on
    their tags and throws on every other tag. *)
Lemma createStrategy_cases productType w :
  (productType = "NORMAL" /\
   ProductStrategyFactory.createStrategy productType w =
     (w, Returned NormalProductStrategy.new)) \/
  (productType = "SEASONAL" /\
   ProductStrategyFactory.createStrategy productType w =
     (w, Returned SeasonalProductStrategy.new)) \/
  (productType = "EXPIRABLE" /\
   ProductStrategyFactory.createStrategy productType w =
     (w, Returned ExpirableProductStrategy.new)) \/
  (productType <> "NORMAL" /\ productType <> "SEASONAL" /\
   productType <> "EXPIRABLE" /\
   ProductStrategyFactory.createStrategy productType w =
     (w, Thrown (unknownProductType productType))).
Proof.
  unfold ProductStrategyFactory.createStrategy.
  destruct (String.eqb_spec productType "NORMAL") as [Hn|Hn];
    [left; split; [exact Hn|reflexivity]|right].
  destruct (String.eqb_spec productType "SEASONAL") as [Hs|Hs];
    [left; split; [exact Hs|reflexivity]|right].
  destruct (String.eqb_spec productType "EXPIRABLE") as [He|He];
    [left; split; [exact He|reflexivity]|right].
  repeat (split; [assumption|]). reflexivity.
Qed.

(** One product, whatever its strategy: a throw of the factory or of the
    strategy passes through, and an answer is settled. *)
Lemma processProductOrder_run product w :
  match ProductStrategyFactory.createStrategy (type product) w with
  | (w0, Thrown e) =>
      OrderProcessingService.processProductOrder product w = (w0, Thrown e)
  | (w0, Returned strategy) =>
      match processOrder strategy product w0 with
      | (w1, Thrown e) =>
          OrderProcessingService.processProductOrder product w =
            (w1, Thrown e)
      | (w1, Returned result) =>
          OrderProcessingService.processProductOrder product w =
            (settle product result w1, Returned tt)
      end
  end.
Proof.
  unfold OrderProcessingService.processProductOrder, bind.
  destruct (ProductStrategyFactory.createStrategy (type product) w)
    as [w0 [strategy|e]]; [|reflexivity].
  destruct (processOrder strategy product w0) as [w1 [result|e]];
    [|reflexivity].
  unfold settle, effects, updateStep, notifyStep, invoke, update, ret.
  destruct w1 as [rows readings count events].
  destruct result as [[|] [values|] [call|]]; cbn;
    rewrite <- ?app_assoc; cbn; rewrite ?app_nil_r; reflexivity.
Qed.

(** A strategy made by the factory answers without throwing; it leaves the
    table and the log alone and at most reads the clock. *)
Lemma created_strategy_answers productType product w w0 strategy :
  ProductStrategyFactory.createStrategy productType w =
    (w0, Returned strategy) ->
  w0 = w /\
  exists result w1,
    processOrder strategy product w0 = (w1, Returned result) /\
    Answer product result /\
    database w1 = database w /\
    log w1 = log w /\
    clock w1 = clock w.
Proof.
  intros Hcreate.
  destruct (createStrategy_cases productType w)
    as [[_ H]|[[_ H]|[[_ H]|(_ & _ & _ & H)]]];
    rewrite H in Hcreate; inversion Hcreate; subst; clear Hcreate;
    (split; [reflexivity|]).
  - eexists; eexists. rewrite normal_processOrder_run.
    repeat split. constructor.
  - eexists; eexists. rewrite seasonal_processOrder_run.
    repeat split. constructor.
  - eexists; eexists. rewrite expirable_processOrder_run.
    repeat split. constructor.
Qed.

Lemma answer_stock_bounded product result :
  0 <= available product ->
  Answer product result ->
  StockBounded product result.
Proof.
  intros Hstock [ |currentDate|currentDate].
  - apply normal_stock_bounded, Hstock.
  - apply seasonal_stock_bounded, Hstock.
  - apply expirable_stock_bounded, Hstock.
Qed.

(** Every update a strategy asks for is a copy of the product with one field
    replaced: it carries the product's own [id]. *)
Lemma answer_carries_id product result values :
  Answer product result ->
  updatedProduct result = Some values ->
  Partial.id values = Some (id product).
Proof.
  intros [ |currentDate|currentDate];
    [unfold NormalProductStrategy.processOrderAt
    |unfold SeasonalProductStrategy.processOrderAt
    |unfold ExpirableProductStrategy.processOrderAt];
    compare; cbn; intros Hvalues; try discriminate;
    injection Hvalues as <-; reflexivity.
Qed.

(** ** Stock never goes negative and never grows *)

(** C9. For every product with [available >= 0] and every strategy the
    factory makes (NORMAL, SEASONAL, EXPIRABLE): whenever the strategy's
    result requests a stock update, the [available] it carries, when
    present, is at least 0 and at most the product's [available]. *)
Theorem strategies_keep_stock_within_bounds
  (productType : string) (product : Product) (w w0 w1 : World)
  (strategy : IProductStrategy) (result : ProductProcessingResult)
  (values : PartialProduct) (a : Z) :
  0 <= available product ->
  ProductStrategyFactory.createStrategy productType w =
    (w0, Returned strategy) ->
  processOrder strategy product w0 = (w1, Returned result) ->
  shouldUpdateStock result = true ->
  updatedProduct result = Some values ->
  Partial.available values = Some a ->
  0 <= a <= available product.
Proof.
  intros Hstock Hcreate Hrun Hupdate Hvalues Ha.
  destruct (created_strategy_answers productType product w w0 strategy Hcreate)
    as (_ & result' & w1' & Hrun' & Hanswer & _).
  rewrite Hrun in Hrun'. inversion Hrun'; subst result'.
  exact (answer_stock_bounded product result Hstock Hanswer
           Hupdate values a Hvalues Ha).
Qed.

Lemma strategies_keep_stock_within_bounds_witness :
  0 <= available (milk 1 6 (today - 2 * day)) /\
  0 <= 0 <= available (milk 1 6 (today - 2 * day)).
Proof.
  split; [cbn; lia|].
  apply (strategies_keep_stock_within_bounds
           "EXPIRABLE" (milk 1 6 (today - 2 * day))
           (worldOf []) (worldOf []) (fst (newDate (worldOf [])))
           ExpirableProductStrategy.new
           (ExpirableProductStrategy.processOrderAt today
              (milk 1 6 (today - 2 * day)))
           (withAvailable 0 (spread (milk 1 6 (today - 2 * day)))) 0).
  - cbn; lia.
  - reflexivity.
  - reflexivity.
  - reflexivity.
  - reflexivity.
  - reflexivity.
Defined.

(** ** One product, then the next *)

(** Processing one product either fails on its type tag, before anything
    happened, or settles the answer of its strategy. *)
Lemma processProductOrder_outcome product w :
  (type product <> "NORMAL" /\ type product <> "SEASONAL" /\
   type product <> "EXPIRABLE" /\
   OrderProcessingService.processProductOrder product w =
     (w, Thrown (unknownProductType (type product)))) \/
  (exists strategy result w1,
      ProductStrategyFactory.createStrategy (type product) w =
        (w, Returned strategy) /\
      processOrder strategy product w = (w1, Returned result) /\
      Answer product result /\
      database w1 = database w /\
      log w1 = log w /\
      OrderProcessingService.processProductOrder product w =
        (settle product result w1, Returned tt)).
Proof.
  pose proof (processProductOrder_run product w) as Hrun.
  destruct (ProductStrategyFactory.createStrategy (type product) w)
    as [w0 [strategy|e]] eqn:Hcreate.
  - right.
    destruct (created_strategy_answers _ product _ _ _ Hcreate)
      as (-> & result & w1 & Hanswer & Hresult & Hdb & Hlog & _).
    rewrite Hanswer in Hrun.
    exists strategy, result, w1. repeat split; assumption.
  - left.
    destruct (createStrategy_cases (type product) w)
      as [[_ H]|[[_ H]|[[_ H]|(Hn & Hs & He & H)]]];
      rewrite H in Hcreate; inversion Hcreate; subst.
    repeat (split; [assumption|]). exact Hrun.
Qed.

Lemma processOrder_cons product rest w :
  OrderProcessingService.processOrder (product :: rest) w =
    match OrderProcessingService.processProductOrder product w with
    | (w1, Returned _) => OrderProcessingService.processOrder rest w1
    | (w1, Thrown e) => (w1, Thrown e)
    end.
Proof. reflexivity. Qed.

(** The loop over a concatenation: the second part runs in the world the
    first part leaves, and only if the first part returned. *)
Lemma processOrder_app before after w :
  OrderProcessingService.processOrder (before ++ after) w =
    match OrderProcessingService.processOrder before w with
    | (w1, Returned _) => OrderProcessingService.processOrder after w1
    | (w1, Thrown e) => (w1, Thrown e)
    end.
Proof.
  revert w. induction before as [|product before IH]; intros w.
  - reflexivity.
  - cbn [app]. rewrite !processOrder_cons.
    destruct (OrderProcessingService.processProductOrder product w)
      as [w1 [[]|e]]; [apply IH|reflexivity].
Qed.

(** ** Unsupported product types *)

(** C8. For every type tag other than NORMAL, SEASONAL and EXPIRABLE the
    factory throws the unknown-product-type error instead of defaulting to a
    strategy; processing a product of such a type throws before any effect;
    and inside [processOrder] the error propagates: the batch stops in the
    world the preceding products left, so the failing product and the
    remaining ones get no stock update and no notification. *)
Theorem unsupported_type_stops_the_batch (productType : string) :
  productType <> "NORMAL" ->
  productType <> "SEASONAL" ->
  productType <> "EXPIRABLE" ->
  (forall w,
      ProductStrategyFactory.createStrategy productType w =
        (w, Thrown (Error
                      (String.append "Unknown product type: " productType))))
  /\
  (forall product w,
      type product = productType ->
      OrderProcessingService.processProductOrder product w =
        (w, Thrown (unknownProductType productType)))
  /\
  (forall before product rest w w1,
      type product = productType ->
      OrderProcessingService.processOrder before w = (w1, Returned tt) ->
      OrderProcessingService.processOrder (before ++ product :: rest) w =
        (w1, Thrown (unknownProductType productType))).
Proof.
  intros Hn Hs He.
  assert (forall w,
             ProductStrategyFactory.createStrategy productType w =
               (w, Thrown (unknownProductType productType))) as Hcreate.
  { intros w.
    destruct (createStrategy_cases productType w)
      as [[H _]|[[H _]|[[H _]|(_ & _ & _ & H)]]];
      [contradiction..|exact H]. }
  assert (forall product w,
             type product = productType ->
             OrderProcessingService.processProductOrder product w =
               (w, Thrown (unknownProductType productType))) as Hone.
  { intros product w Htype.
    pose proof (processProductOrder_run product w) as Hrun.
    rewrite Htype, Hcreate in Hrun. exact Hrun. }
  split; [exact Hcreate|]. split; [exact Hone|].
  intros before product rest w w1 Htype Hbefore.
  rewrite processOrder_app, Hbefore, processOrder_cons.
  rewrite (Hone product w1 Htype). reflexivity.
Qed.

Lemma unsupported_type_stops_the_batch_witness :
  "FLASHSALE" <> "NORMAL" /\
  "FLASHSALE" <> "SEASONAL" /\
  "FLASHSALE" <> "EXPIRABLE" /\
  forall w,
    ProductStrategyFactory.createStrategy "FLASHSALE" w =
      (w, Thrown (Error "Unknown product type: FLASHSALE")).
Proof.
  split; [discriminate|]. split; [discriminate|]. split; [discriminate|].
  exact (proj1 (unsupported_type_stops_the_batch "FLASHSALE"
                  ltac:(discriminate) ltac:(discriminate)
                  ltac:(discriminate))).
Defined.

(** ** What one product may write *)

Lemma updateWhereId_length values whereId rows :
  length (updateWhereId values whereId rows) = length rows.
Proof. apply length_map. Qed.

(** Rows with another [id] are out of reach of the update. *)
Lemma updateWhereId_other values whereId rows i row :
  nth_error rows i = Some row ->
  id row <> whereId ->
  nth_error (updateWhereId values whereId rows) i = Some row.
Proof.
  intros Hrow Hother. unfold updateWhereId.
  rewrite nth_error_map, Hrow. cbn.
  destruct (Z.eqb_spec (id row) whereId); [contradiction|reflexivity].
Qed.

Lemma settle_database_other product result w i row :
  nth_error (database w) i = Some row ->
  id row <> id product ->
  nth_error (database (settle product result w)) i = Some row.
Proof.
  intros Hrow Hother. unfold settle; cbn.
  destruct (shouldUpdateStock result), (updatedProduct result);
    try exact Hrow.
  apply updateWhereId_other; assumption.
Qed.

Lemma settle_database_length product result w :
  length (database (settle product result w)) = length (database w).
Proof.
  unfold settle; cbn.
  destruct (shouldUpdateStock result), (updatedProduct result);
    try reflexivity.
  apply updateWhereId_length.
Qed.

Lemma effects_updates product result values whereId :
  In (DbUpdate values whereId) (effects product result) ->
  whereId = id product /\
  shouldUpdateStock result = true /\
  updatedProduct result = Some values.
Proof.
  unfold effects, updateStep, notifyStep.
  intros Hin. apply in_app_or in Hin.
  destruct (shouldUpdateStock result), (updatedProduct result),
    (notificationAction result); cbn in Hin;
    repeat match goal with
      | H : _ \/ _ |- _ => destruct H
      | H : False |- _ => contradiction
      | H : DbUpdate _ _ = DbUpdate _ _ |- _ => inversion H; subst; clear H
      | H : Notified _ = DbUpdate _ _ |- _ => discriminate H
      end;
    repeat split.
Qed.

(** C10. Frame of [processProductOrder]: the table keeps its rows in place;
    a row whose [id] is not the input product's [id] is left as it was;
    every write logged is the update filtered by the input's [id] with
    values that carry that same [id]; and when the strategy's result has
    [shouldUpdateStock] false or no [updatedProduct], the table is unchanged
    and no write is logged at all. *)
Theorem processProductOrder_writes_only_its_row
  (product : Product) (w : World) :
  let w' := fst (OrderProcessingService.processProductOrder product w) in
  length (database w') = length (database w) /\
  (forall i row,
      nth_error (database w) i = Some row ->
      id row <> id product ->
      nth_error (database w') i = Some row) /\
  exists events,
    log w' = log w ++ events /\
    (forall values whereId,
        In (DbUpdate values whereId) events ->
        whereId = id product /\ Partial.id values = Some (id product)) /\
    (forall strategy w0 w1 result,
        ProductStrategyFactory.createStrategy (type product) w =
          (w0, Returned strategy) ->
        processOrder strategy product w0 = (w1, Returned result) ->
        shouldUpdateStock result = false \/ updatedProduct result = None ->
        database w' = database w /\
        forall values whereId, ~ In (DbUpdate values whereId) events).
Proof.
  cbv zeta.
  destruct (processProductOrder_outcome product w)
    as [(Hn & Hs & He & Hthrow)
       |(strategy & result & w1 & Hcreate & Hrun & Hanswer & Hdb & Hlog
         & Hsettle)].
  - rewrite Hthrow; cbn [fst].
    split; [reflexivity|]. split; [intros i row Hrow _; exact Hrow|].
    exists []. rewrite app_nil_r.
    split; [reflexivity|]. split; [intros values whereId []|].
    intros strategy w0 w1 result Hcreate.
    destruct (createStrategy_cases (type product) w)
      as [[H _]|[[H _]|[[H _]|(_ & _ & _ & H)]]];
      try contradiction.
    rewrite H in Hcreate. discriminate Hcreate.
  - rewrite Hsettle; cbn [fst].
    split; [rewrite settle_database_length, Hdb; reflexivity|].
    split.
    { intros i row Hrow Hother.
      apply settle_database_other; [rewrite Hdb; exact Hrow|exact Hother]. }
    exists (effects product result).
    split; [cbn; rewrite Hlog; reflexivity|].
    split.
    { intros values whereId Hin.
      destruct (effects_updates _ _ _ _ Hin) as (-> & _ & Hvalues).
      split; [reflexivity|].
      exact (answer_carries_id product result values Hanswer Hvalues). }
    intros strategy' w0 w1' result' Hcreate' Hrun' Hnone.
    rewrite Hcreate in Hcreate'. inversion Hcreate'; subst w0 strategy'.
    rewrite Hrun in Hrun'. inversion Hrun'; subst w1' result'.
    split.
    + unfold settle; cbn. rewrite Hdb.
      destruct Hnone as [-> | ->]; [reflexivity|].
      destruct (shouldUpdateStock result); reflexivity.
    + intros values whereId Hin.
      destruct (effects_updates _ _ _ _ Hin) as (_ & Hupdate & Hvalues).
      destruct Hnone as [Hnone|Hnone]; congruence.
Qed.

(** ** The order of effects in a batch *)


(** The log of a batch is the effects of its products, one product after
    the other. *)
Lemma Batch_log w answered w' :
  Batch w answered w' ->
  log w' =
    log w ++ flat_map (fun step => effects (fst step) (snd step)) answered.
Proof.
  induction 1 as [w|w w1 w' product strategy result answered
                    Hcreate Hrun _ IH].
  - cbn. rewrite app_nil_r. reflexivity.
  - destruct (created_strategy_answers _ product _ _ _ Hcreate)
      as (_ & result' & w1' & Hrun' & _ & _ & Hlog & _).
    rewrite Hrun in Hrun'. inversion Hrun'; subst w1' result'.
    rewrite IH. cbn. rewrite Hlog, <- app_assoc. reflexivity.
Qed.


(** ** Products by type *)

(** A product of a supported type is processed by the strategy of its type:
    the result of that strategy, at the clock reading it makes, is settled. *)
Lemma normal_product_processed product w :
  type product = "NORMAL" ->
  OrderProcessingService.processProductOrder product w =
    (settle product (NormalProductStrategy.processOrderAt product) w,
     Returned tt).
Proof.
  intros Htype.
  pose proof (processProductOrder_run product w) as Hrun.
  rewrite Htype in Hrun. exact Hrun.
Qed.

Lemma seasonal_product_processed product w :
  type product = "SEASONAL" ->
  OrderProcessingService.processProductOrder product w =
    (settle product
       (SeasonalProductStrategy.processOrderAt (clock w (ticks w)) product)
       (fst (newDate w)),
     Returned tt).
Proof.
  intros Htype.
  pose proof (processProductOrder_run product w) as Hrun.
  rewrite Htype in Hrun. exact Hrun.
Qed.

Lemma expirable_product_processed product w :
  type product = "EXPIRABLE" ->
  OrderProcessingService.processProductOrder product w =
    (settle product
       (ExpirableProductStrategy.processOrderAt (clock w (ticks w)) product)
       (fst (newDate w)),
     Returned tt).
Proof.
  intros Htype.
  pose proof (processProductOrder_run product w) as Hrun.
  rewrite Htype in Hrun. exact Hrun.
Qed.

(** ** The scenarios of the test suite *)

(** "should process multiple products in order": both rows lose one unit,
    the first before the second. *)
Example processOrder_normal_then_expirable :
  let order := [usbCable 5 15; milk 2 3 (today + 10 * day)] in
  let w' := fst (OrderProcessingService.processOrder order (worldOf order)) in
  map (fun row => (id row, available row)) (database w') = [(1, 4); (2, 2)] /\
  log w' =
    [DbUpdate (withAvailable 4 (spread (usbCable 5 15))) 1;
     DbUpdate
       (withAvailable 2 (spread (milk 2 3 (today + 10 * day)))) 2].
Proof. split; reflexivity. Qed.

(** "should process expired product and notify expiration": the write comes
    first, the notification after it. *)
Example processProductOrder_expired_milk :
  let product := milk 1 5 (today - 5 * day) in
  let w' :=
    fst (OrderProcessingService.processProductOrder product
           (worldOf [product])) in
  map available (database w') = [0] /\
  log w' =
    [DbUpdate (withAvailable 0 (spread product)) 1;
     Notified (sendExpirationNotification "Milk" (Some (today - 5 * day)))].
Proof. split; reflexivity. Qed.

(** A batch with an unsupported product in the middle: the first product is
    written, the error comes out, the last product is never reached. *)
Example processOrder_stops_at_gift_card :
  let order := [usbCable 5 15; giftCard; milk 2 3 (today + 10 * day)] in
  let run := OrderProcessingService.processOrder order (worldOf order) in
  snd run = Thrown (Error "Unknown product type: GIFTCARD") /\
  map (fun row => (id row, available row)) (database (fst run))
    = [(1, 4); (3, 7); (2, 3)] /\
  log (fst run) = [DbUpdate (withAvailable 4 (spread (usbCable 5 15))) 1].
Proof. repeat split; reflexivity. Qed.

(** * Further properties of the strategies *)

(** The two forms an update can take: the product's fields with the stock
    replaced, or with the lead time rewritten to itself. *)
Lemma answer_payload product result values :
  Answer product result ->
  updatedProduct result = Some values ->
  values =
    withAvailable (Number.minus (available product) 1) (spread product) \/
  values = withAvailable 0 (spread product) \/
  values = withLeadTime (leadTime product) (spread product).
Proof.
  intros [ |currentDate|currentDate];
    [unfold NormalProductStrategy.processOrderAt
    |unfold SeasonalProductStrategy.processOrderAt
    |unfold ExpirableProductStrategy.processOrderAt];
    compare; cbn; intros Hvalues; try discriminate;
    injection Hvalues as <-; auto.
Qed.

Lemma applySet_withAvailable a product row :
  applySet (withAvailable a (spread product)) row = withStock a product.
Proof. reflexivity. Qed.

Lemma withStock_same product : withStock (available product) product = product.
Proof. destruct product; reflexivity. Qed.

(** What a requested update does to any row it reaches: the row becomes the
    product as it was passed in, with a stock [a] that is the product's
    minus one as the numbers compute it, zero, or the product's own. *)
Lemma answer_overwrites product result values :
  Answer product result ->
  updatedProduct result = Some values ->
  exists a,
    (forall row, applySet values row = withStock a product) /\
    Partial.available values = Some a /\
    Partial.id values = Some (id product) /\
    (a = Number.minus (available product) 1 \/ a = 0 \/
     a = available product).
Proof.
  intros Hanswer Hvalues.
  destruct (answer_payload _ _ _ Hanswer Hvalues) as [-> | [-> | ->]].
  - exists (Number.minus (available product) 1). repeat split; auto.
  - exists 0. repeat split; auto.
  - exists (available product). repeat split; auto.
Qed.

(** X1. In every result of every strategy, [shouldUpdateStock] is true
    exactly when [updatedProduct] is present: the two halves of the guard
    of [processProductOrder] never disagree. *)
Theorem answers_flag_matches_payload
  (product : Product) (result : ProductProcessingResult) :
  Answer product result ->
  (shouldUpdateStock result = true <-> updatedProduct result <> None).
Proof.
  intros [ |currentDate|currentDate];
    [unfold NormalProductStrategy.processOrderAt
    |unfold SeasonalProductStrategy.processOrderAt
    |unfold ExpirableProductStrategy.processOrderAt];
    compare; cbn; split; intros Hflag; congruence.
Qed.

Lemma answers_flag_matches_payload_witness :
  Answer (grapes 5) (SeasonalProductStrategy.processOrderAt today (grapes 5))
  /\ (shouldUpdateStock
        (SeasonalProductStrategy.processOrderAt today (grapes 5)) = true
      <-> updatedProduct
            (SeasonalProductStrategy.processOrderAt today (grapes 5))
          <> None).
Proof.
  split; [constructor|].
  exact (answers_flag_matches_payload (grapes 5) _
           (SeasonalAnswer (grapes 5) today)).
Defined.

(** X2. Every update a strategy requests is a copy of the product it was
    given with at most the stock changed: written over any row, it turns
    the row into that product with a stock that is the product's minus one
    as JavaScript computes it (exactly minus one for a stock up to
    [2 ^ 53], the nearest double beyond), zero, or unchanged.  No strategy
    ever changes the [id], [name], [type], [leadTime] or a date of the
    product it was given. *)
Theorem updates_overwrite_row_with_input
  (product : Product) (result : ProductProcessingResult)
  (values : PartialProduct) :
  Answer product result ->
  updatedProduct result = Some values ->
  exists a,
    (forall row, applySet values row = withStock a product) /\
    (a = Number.minus (available product) 1 \/ a = 0 \/
     a = available product) /\
    (0 < available product <= 2 ^ 53 ->
     Number.minus (available product) 1 = available product - 1).
Proof.
  intros Hanswer Hvalues.
  destruct (answer_overwrites _ _ _ Hanswer Hvalues)
    as (a & Hrow & _ & _ & Hstock).
  exists a. split; [exact Hrow|]. split; [exact Hstock|].
  apply minus_one_exact.
Qed.

Lemma updates_overwrite_row_with_input_witness :
  Answer (usbCable 0 15) (NormalProductStrategy.processOrderAt (usbCable 0 15))
  /\ exists a,
       (forall row,
           applySet (withLeadTime 15 (spread (usbCable 0 15))) row =
             withStock a (usbCable 0 15)) /\
       (a = Number.minus (available (usbCable 0 15)) 1 \/ a = 0 \/
        a = available (usbCable 0 15)).
Proof.
  split; [constructor|].
  destruct (updates_overwrite_row_with_input (usbCable 0 15) _ _
              (NormalAnswer (usbCable 0 15)) eq_refl)
    as (a & Hrow & Hstock & _).
  exists a. split; assumption.
Defined.

(** X3. A notification always speaks about the product being processed.
    NORMAL only ever announces a delay, with the product's [leadTime] and
    [name]; SEASONAL announces that delay or out-of-stock with the [name];
    EXPIRABLE only ever announces the expiration, with the [name] and the
    product's [expiryDate]. *)
Theorem notifications_carry_product_data
  (currentDate : Date) (product : Product) :
  (notificationAction (NormalProductStrategy.processOrderAt product) = None \/
   notificationAction (NormalProductStrategy.processOrderAt product) =
     Some (sendDelayNotification (leadTime product) (name product))) /\
  (notificationAction
     (SeasonalProductStrategy.processOrderAt currentDate product) = None \/
   notificationAction
     (SeasonalProductStrategy.processOrderAt currentDate product) =
     Some (sendDelayNotification (leadTime product) (name product)) \/
   notificationAction
     (SeasonalProductStrategy.processOrderAt currentDate product) =
     Some (sendOutOfStockNotification (name product))) /\
  (notificationAction
     (ExpirableProductStrategy.processOrderAt currentDate product) = None \/
   notificationAction
     (ExpirableProductStrategy.processOrderAt currentDate product) =
     Some (sendExpirationNotification (name product) (expiryDate product))).
Proof.
  unfold NormalProductStrategy.processOrderAt,
    SeasonalProductStrategy.processOrderAt,
    ExpirableProductStrategy.processOrderAt.
  split; [|split]; compare; cbn; auto.
Qed.

(** X4. A SEASONAL product that still has stock once its season is over
    ([seasonStartDate <= seasonEndDate <= now]) falls through every branch:
    no stock update, no notification, nothing is said about the stock that
    remains. *)
Theorem seasonal_after_season_with_stock_is_silent
  (now seasonStart seasonEnd : Date) (product : Product) :
  seasonStartDate product = Some seasonStart ->
  seasonEndDate product = Some seasonEnd ->
  seasonStart <= seasonEnd ->
  seasonEnd <= now ->
  available product <> 0 ->
  SeasonalProductStrategy.processOrderAt now product = untouched.
Proof.
  intros Hstart Hend Hseason Hover Hstock.
  unfold SeasonalProductStrategy.processOrderAt, untouched.
  rewrite Hstart, Hend; cbn [toNumber].
  compare; try lia; reflexivity.
Qed.

Lemma seasonal_after_season_with_stock_is_silent_witness :
  seasonStartDate (watermelon 5 15 50) = Some (today - 10 * day) /\
  seasonEndDate (watermelon 5 15 50) = Some (today + 50 * day) /\
  today - 10 * day <= today + 50 * day /\
  today + 50 * day <= today + 60 * day /\
  available (watermelon 5 15 50) <> 0 /\
  SeasonalProductStrategy.processOrderAt (today + 60 * day)
    (watermelon 5 15 50) = untouched.
Proof.
  split; [reflexivity|]. split; [reflexivity|].
  split; [discriminate|]. split; [discriminate|].
  split; [discriminate|].
  exact (seasonal_after_season_with_stock_is_silent (today + 60 * day)
           (today - 10 * day) (today + 50 * day) (watermelon 5 15 50)
           eq_refl eq_refl ltac:(discriminate) ltac:(discriminate)
           ltac:(discriminate)).
Defined.

(** X5. The EXPIRABLE strategy always requests a stock update, whatever the
    stock and the dates, and it attaches its notification exactly when it
    does not sell: the result carries no notification if and only if the
    product is in stock and its expiry date is still ahead. *)
Theorem expirable_always_writes (currentDate : Date) (product : Product) :
  shouldUpdateStock
    (ExpirableProductStrategy.processOrderAt currentDate product) = true /\
  updatedProduct
    (ExpirableProductStrategy.processOrderAt currentDate product) <> None /\
  (notificationAction
     (ExpirableProductStrategy.processOrderAt currentDate product) = None
   <-> 0 < available product /\
       currentDate < toNumber (expiryDate product)).
Proof.
  unfold ExpirableProductStrategy.processOrderAt.
  split; [|split; [|split]]; compare; cbn; try reflexivity; try discriminate;
    try lia; intros Hsold; lia.
Qed.

(** X6. A missing date is not rejected: [null] compares as the epoch.
    After the epoch, an EXPIRABLE product without [expiryDate] is written
    off as expired, with a notification that carries the missing date; a
    SEASONAL product without season dates is never sold: with stock it is
    passed over in silence, and without stock, with a non-negative lead
    time whose restock instant is within the range of [Date], it is
    reported out of stock. *)
Theorem missing_dates_compare_as_epoch (now : Date) (product : Product) :
  0 < now ->
  (expiryDate product = None ->
     ExpirableProductStrategy.processOrderAt now product =
       {| shouldUpdateStock := true;
          updatedProduct := Some (withAvailable 0 (spread product));
          notificationAction :=
            Some (sendExpirationNotification (name product) None) |}) /\
  (seasonStartDate product = None -> seasonEndDate product = None ->
     available product <> 0 ->
     SeasonalProductStrategy.processOrderAt now product = untouched) /\
  (seasonEndDate product = None ->
     available product = 0 -> 0 <= leadTime product ->
     now + leadTime product * 86400000 <= maxTime ->
     SeasonalProductStrategy.processOrderAt now product =
       {| shouldUpdateStock := true;
          updatedProduct := Some (withAvailable 0 (spread product));
          notificationAction :=
            Some (sendOutOfStockNotification (name product)) |}).
Proof.
  intros Hnow. split; [|split].
  - intros Hexpiry. unfold ExpirableProductStrategy.processOrderAt.
    rewrite Hexpiry; cbn [toNumber]. compare; try lia; reflexivity.
  - intros Hstart Hend Hstock.
    unfold SeasonalProductStrategy.processOrderAt, untouched.
    rewrite Hstart, Hend; cbn [toNumber]. compare; try lia; reflexivity.
  - intros Hend Hzero Hlead Hrange.
    unfold SeasonalProductStrategy.processOrderAt.
    rewrite millisecondsPerDay_value, Hend, Hzero; cbn [toNumber].
    rewrite (restock_date_later now (leadTime product) 0) by lia.
    compare; try lia; reflexivity.
Qed.

Lemma missing_dates_compare_as_epoch_witness :
  0 < today /\
  ExpirableProductStrategy.processOrderAt today undatedMilk =
    {| shouldUpdateStock := true;
       updatedProduct := Some (withAvailable 0 (spread undatedMilk));
       notificationAction :=
         Some (sendExpirationNotification "Milk" None) |}.
Proof.
  split; [reflexivity|].
  exact (proj1 (missing_dates_compare_as_epoch today undatedMilk
                  eq_refl) eq_refl).
Defined.

(** * Further properties of the factory and the processor *)

Lemma supported_cases productType :
  (supported productType = true /\
   (productType = "NORMAL" \/ productType = "SEASONAL" \/
    productType = "EXPIRABLE")) \/
  (supported productType = false /\
   productType <> "NORMAL" /\ productType <> "SEASONAL" /\
   productType <> "EXPIRABLE").
Proof.
  unfold supported.
  destruct (String.eqb_spec productType "NORMAL");
    [left; cbn; auto|].
  destruct (String.eqb_spec productType "SEASONAL");
    [left; cbn; auto|].
  destruct (String.eqb_spec productType "EXPIRABLE");
    [left; cbn; auto|].
  right; cbn; auto.
Qed.

(** With collaborators that succeed, one product returns exactly when its
    type is supported. *)
Lemma processProductOrder_returns_iff product w :
  snd (OrderProcessingService.processProductOrder product w) = Returned tt
  <-> supported (type product) = true.
Proof.
  destruct (supported_cases (type product))
    as [[Hyes Htag]|(Hno & Hn & Hs & He)];
    destruct (processProductOrder_outcome product w)
      as [(Hn' & Hs' & He' & Hthrow)
         |(s & r & w1 & Hcreate & _ & _ & _ & _ & Hok)].
  - destruct Htag as [H|[H|H]]; contradiction.
  - rewrite Hok. cbn. split; auto.
  - rewrite Hthrow, Hno. cbn. split; discriminate.
  - exfalso.
    destruct (createStrategy_cases (type product) w)
      as [[H _]|[[H _]|[[H _]|(_ & _ & _ & H)]]];
      try contradiction.
    rewrite H in Hcreate. discriminate Hcreate.
Qed.

(** X7. The type tag alone selects the rules.  A NORMAL product is settled
    by the NORMAL rules without the clock being read; a SEASONAL or an
    EXPIRABLE product is settled by its rules at one reading of the clock,
    taken when the product's turn comes. *)
Theorem product_type_selects_strategy (product : Product) (w : World) :
  (type product = "NORMAL" ->
     OrderProcessingService.processProductOrder product w =
       (settle product (NormalProductStrategy.processOrderAt product) w,
        Returned tt)) /\
  (type product = "SEASONAL" ->
     OrderProcessingService.processProductOrder product w =
       (settle product
          (SeasonalProductStrategy.processOrderAt (clock w (ticks w)) product)
          (fst (newDate w)),
        Returned tt)
     /\ ticks (fst (OrderProcessingService.processProductOrder product w)) =
          S (ticks w)) /\
  (type product = "EXPIRABLE" ->
     OrderProcessingService.processProductOrder product w =
       (settle product
          (ExpirableProductStrategy.processOrderAt (clock w (ticks w)) product)
          (fst (newDate w)),
        Returned tt)
     /\ ticks (fst (OrderProcessingService.processProductOrder product w)) =
          S (ticks w)).
Proof.
  split; [|split]; intros Htype.
  - apply normal_product_processed, Htype.
  - rewrite (seasonal_product_processed product w Htype).
    split; reflexivity.
  - rewrite (expirable_product_processed product w Htype).
    split; reflexivity.
Qed.

(** X8. [processOrder] returns only if every product of the order has a
    supported type: an order that holds a product of an unsupported type,
    at any position, does not return. *)
Theorem processOrder_returns_only_if_types_supported
  (orderProducts : list Product) (w : World) :
  snd (OrderProcessingService.processOrder orderProducts w) = Returned tt ->
  forallb supported (map type orderProducts) = true.
Proof.
  revert w.
  induction orderProducts as [|product rest IH]; intros w.
  - reflexivity.
  - rewrite processOrder_cons. cbn [map forallb].
    pose proof (processProductOrder_returns_iff product w) as Hone.
    destruct (OrderProcessingService.processProductOrder product w)
      as [w1 [[]|e]]; cbn [snd] in *.
    + rewrite (proj1 Hone eq_refl). cbn. apply IH.
    + discriminate.
Qed.

Lemma processOrder_returns_only_if_types_supported_witness :
  snd (OrderProcessingService.processOrder [usbCable 5 15]
         (worldOf [usbCable 5 15])) = Returned tt /\
  forallb supported (map type [usbCable 5 15]) = true.
Proof.
  split; [reflexivity|].
  exact (processOrder_returns_only_if_types_supported [usbCable 5 15]
           (worldOf [usbCable 5 15]) eq_refl).
Defined.

(** X9. Orders compose: processing [before ++ after] is processing
    [before] and then, if that returned, [after] in the world it left; if
    [before] throws, [after] is not started.  An order of one product is
    that product's processing. *)
Theorem processOrder_composes
  (before after : list Product) (product : Product) (w : World) :
  OrderProcessingService.processOrder (before ++ after) w =
    match OrderProcessingService.processOrder before w with
    | (w1, Returned _) => OrderProcessingService.processOrder after w1
    | (w1, Thrown e) => (w1, Thrown e)
    end /\
  OrderProcessingService.processOrder [product] w =
    OrderProcessingService.processProductOrder product w.
Proof.
  split; [apply processOrder_app|].
  rewrite processOrder_cons.
  destruct (OrderProcessingService.processProductOrder product w)
    as [w1 [[]|e]]; reflexivity.
Qed.

(** ** What a whole order does to the table and to the log *)

(** The products an order gets through form a batch; they are an initial
    part of the order, and all of it when the order returns. *)
Lemma processOrder_batch orderProducts w :
  exists answered rest,
    Batch w answered
      (fst (OrderProcessingService.processOrder orderProducts w)) /\
    orderProducts = map fst answered ++ rest.
Proof.
  revert w.
  induction orderProducts as [|product rest IH]; intros w.
  - exists [], []. split; [constructor|reflexivity].
  - rewrite processOrder_cons.
    destruct (processProductOrder_outcome product w)
      as [(_ & _ & _ & Hthrow)
         |(strategy & result & w1 & Hcreate & Hrun & _ & _ & _ & Hsettle)].
    + rewrite Hthrow. exists [], (product :: rest).
      split; [constructor|reflexivity].
    + rewrite Hsettle.
      destruct (IH (settle product result w1))
        as (answered & rest' & Hbatch & ->).
      exists ((product, result) :: answered), rest'.
      split; [econstructor; eassumption|reflexivity].
Qed.

(** Induction over a batch, one settled answer at a time: a property of
    the table and the log that every settled answer preserves holds after
    the batch. *)
Lemma Batch_preserves (P : list Product -> Prop) w answered w' :
  Batch w answered w' ->
  (forall product result rows,
      In (product, result) answered ->
      Answer product result ->
      P rows ->
      P (database (settle product result
                     {| database := rows; clock := clock w;
                        ticks := ticks w; log := log w |}))) ->
  P (database w) ->
  P (database w').
Proof.
  induction 1 as [w|w w1 w' product strategy result answered
                    Hcreate Hrun _ IH]; intros Hstep Hstart.
  - exact Hstart.
  - destruct (created_strategy_answers _ product _ _ _ Hcreate)
      as (_ & result' & w1' & Hrun' & Hanswer & Hdb & _).
    rewrite Hrun in Hrun'. inversion Hrun'; subst w1' result'.
    apply IH.
    + intros product' result' rows Hin Hanswer' Hrows.
      exact (Hstep product' result' rows (or_intror Hin) Hanswer' Hrows).
    + pose proof (Hstep product result (database w) (or_introl eq_refl)
                    Hanswer Hstart) as Hnext.
      unfold settle in *; cbn in *. rewrite Hdb. exact Hnext.
Qed.

Lemma updateWhereId_ids values whereId rows :
  Partial.id values = Some whereId ->
  map id (updateWhereId values whereId rows) = map id rows.
Proof.
  intros Hid. unfold updateWhereId. rewrite map_map.
  apply map_ext. intros row.
  destruct (Z.eqb_spec (id row) whereId) as [Heq|_]; [|reflexivity].
  cbn. rewrite Hid. cbn. symmetry. exact Heq.
Qed.

(** The table after one settled answer, row by row. *)
Lemma settle_database_rows product result w :
  Answer product result ->
  database (settle product result w) = database w \/
  exists a,
    (a = Number.minus (available product) 1 \/ a = 0 \/
     a = available product) /\
    (0 <= available product -> 0 <= a <= available product) /\
    database (settle product result w) =
      map (fun row =>
             if id row =? id product then withStock a product else row)
        (database w).
Proof.
  intros Hanswer. unfold settle; cbn.
  destruct (shouldUpdateStock result) eqn:Hupdate; [|left; reflexivity].
  destruct (updatedProduct result) as [values|] eqn:Hvalues;
    [|left; reflexivity].
  right.
  destruct (answer_overwrites _ _ _ Hanswer Hvalues)
    as (a & Hrow & Ha & _ & Hstock).
  exists a. split; [exact Hstock|]. split.
  - intros Hnonneg.
    exact (answer_stock_bounded product result Hnonneg Hanswer Hupdate
             values a Hvalues Ha).
  - unfold updateWhereId. apply map_ext. intros row.
    rewrite Hrow. reflexivity.
Qed.

(** X10. Frame of a whole order: [processOrder] never adds or removes a
    row, and a row whose [id] is the [id] of no product of the order is
    left exactly as it was, whether the order returns or throws. *)
Theorem processOrder_writes_only_ordered_rows
  (orderProducts : list Product) (w : World) :
  let w' := fst (OrderProcessingService.processOrder orderProducts w) in
  length (database w') = length (database w) /\
  (forall i row,
      nth_error (database w) i = Some row ->
      (forall product, In product orderProducts -> id row <> id product) ->
      nth_error (database w') i = Some row).
Proof.
  cbv zeta.
  destruct (processOrder_batch orderProducts w)
    as (answered & rest & Hbatch & Horder).
  split.
  - apply (Batch_preserves
             (fun rows => length rows = length (database w))
             w answered _ Hbatch); [|reflexivity].
    intros product result rows _ _ Hrows.
    rewrite settle_database_length. exact Hrows.
  - intros i row Hrow Hother.
    apply (Batch_preserves
             (fun rows => nth_error rows i = Some row)
             w answered _ Hbatch); [|exact Hrow].
    intros product result rows Hin _ Hrows.
    apply settle_database_other; [exact Hrows|].
    apply Hother. rewrite Horder. apply in_or_app. left.
    apply (in_map fst) in Hin. exact Hin.
Qed.

(** X11. The [id] column is invariant: after [processOrder] the rows carry
    the same ids in the same positions, although every write sets the [id]
    column too. *)
Theorem processOrder_keeps_ids (orderProducts : list Product) (w : World) :
  map id (database (fst (OrderProcessingService.processOrder orderProducts w)))
  = map id (database w).
Proof.
  destruct (processOrder_batch orderProducts w)
    as (answered & rest & Hbatch & _).
  apply (Batch_preserves (fun rows => map id rows = map id (database w))
           w answered _ Hbatch); [|reflexivity].
  intros product result rows _ Hanswer Hrows.
  unfold settle; cbn [database].
  destruct (shouldUpdateStock result); [|exact Hrows].
  destruct (updatedProduct result) as [values|] eqn:Hvalues; [|exact Hrows].
  rewrite updateWhereId_ids; [exact Hrows|].
  exact (answer_carries_id product result values Hanswer Hvalues).
Qed.

(** X12. Stock stays non-negative in the table: if no row and no product
    of the order has a negative [available], no row has one after
    [processOrder]. *)
Theorem processOrder_keeps_stock_non_negative
  (orderProducts : list Product) (w : World) :
  Forall (fun row => 0 <= available row) (database w) ->
  Forall (fun product => 0 <= available product) orderProducts ->
  Forall (fun row => 0 <= available row)
    (database (fst (OrderProcessingService.processOrder orderProducts w))).
Proof.
  intros Hrows Hproducts.
  destruct (processOrder_batch orderProducts w)
    as (answered & rest & Hbatch & Horder).
  apply (Batch_preserves (Forall (fun row => 0 <= available row))
           w answered _ Hbatch); [|exact Hrows].
  intros product result rows Hin Hanswer Hnonneg.
  assert (0 <= available product) as Hstock.
  { rewrite Forall_forall in Hproducts. apply Hproducts.
    rewrite Horder. apply in_or_app. left.
    apply (in_map fst) in Hin. exact Hin. }
  destruct (settle_database_rows product result
              {| database := rows; clock := clock w;
                 ticks := ticks w; log := log w |} Hanswer)
    as [-> | (a & _ & Hbound & ->)]; [exact Hnonneg|].
  cbn. apply Forall_map.
  rewrite Forall_forall in *. intros row Hrow.
  destruct (id row =? id product); [cbn; apply Hbound, Hstock|].
  apply Hnonneg, Hrow.
Qed.

Lemma processOrder_keeps_stock_non_negative_witness :
  let order := [milk 2 3 (today - day); usbCable 1 0] in
  Forall (fun row => 0 <= available row) (database (worldOf order)) /\
  Forall (fun product => 0 <= available product) order /\
  Forall (fun row => 0 <= available row)
    (database (fst (OrderProcessingService.processOrder order
                      (worldOf order)))).
Proof.
  cbv zeta.
  assert (Forall (fun row => 0 <= available row)
            [milk 2 3 (today - day); usbCable 1 0]) as Hok.
  { repeat constructor; discriminate. }
  split; [exact Hok|]. split; [exact Hok|].
  exact (processOrder_keeps_stock_non_negative
           [milk 2 3 (today - day); usbCable 1 0]
           (worldOf [milk 2 3 (today - day); usbCable 1 0]) Hok Hok).
Defined.

(** ** One product and its row *)

(** X13. A sale, from the order to the table.  For a product with a
    stock of at least 1 and at most [2 ^ 53] that is NORMAL, or SEASONAL
    and strictly inside its season at the clock reading, or EXPIRABLE and
    not yet expired at the clock reading, the one effect
    [processProductOrder] issues is a write, without notification: the
    update filtered by the product's [id] that carries the product as it
    was passed in with its stock minus one.  Applied to the table, it
    leaves every row with that [id] equal to the product passed in with
    its stock minus one: the stock written is computed from the product
    passed in, not from the stock the row held. *)
Theorem sale_writes_input_stock_minus_one
  (product : Product) (w : World) (i : nat) (row : Product) :
  nth_error (database w) i = Some row ->
  id row = id product ->
  0 < available product <= 2 ^ 53 ->
  type product = "NORMAL" \/
  (type product = "SEASONAL" /\
   toNumber (seasonStartDate product) < clock w (ticks w)
     < toNumber (seasonEndDate product)) \/
  (type product = "EXPIRABLE" /\
   clock w (ticks w) < toNumber (expiryDate product)) ->
  log (fst (OrderProcessingService.processProductOrder product w)) =
    log w ++
    [DbUpdate (withAvailable (available product - 1) (spread product))
       (id product)] /\
  nth_error
    (database (fst (OrderProcessingService.processProductOrder product w))) i
    = Some (withStock (available product - 1) product).
Proof.
  intros Hrow Hid Hstock Hcase.
  pose proof (minus_one_exact (available product) Hstock) as Hexact.
  assert (exists w1,
             database w1 = database w /\ log w1 = log w /\
             OrderProcessingService.processProductOrder product w =
               (settle product (decremented product) w1, Returned tt))
    as (w1 & Hdb & Hlog & Hrun).
  { destruct Hcase as [Htype|[[Htype Hseason]|[Htype Hfresh]]].
    - exists w. split; [reflexivity|]. split; [reflexivity|].
      rewrite (normal_product_processed product w Htype).
      unfold NormalProductStrategy.processOrderAt, decremented.
      rewrite Hexact. compare; try lia; reflexivity.
    - exists (fst (newDate w)). split; [reflexivity|]. split; [reflexivity|].
      rewrite (seasonal_product_processed product w Htype).
      unfold SeasonalProductStrategy.processOrderAt, decremented.
      rewrite Hexact. compare; try lia; reflexivity.
    - exists (fst (newDate w)). split; [reflexivity|]. split; [reflexivity|].
      rewrite (expirable_product_processed product w Htype).
      unfold ExpirableProductStrategy.processOrderAt, decremented.
      rewrite Hexact. compare; try lia; reflexivity. }
  rewrite Hrun. cbn [fst snd].
  split.
  - unfold settle, decremented, effects, updateStep, notifyStep; cbn.
    rewrite Hlog. reflexivity.
  - unfold settle, decremented, updateWhereId; cbn. rewrite Hdb.
    rewrite nth_error_map, Hrow. cbn.
    rewrite Hid, Z.eqb_refl. reflexivity.
Qed.

Lemma sale_writes_input_stock_minus_one_witness :
  let product := milk 2 3 (today + 10 * day) in
  let w := worldOf [usbCable 5 15; product] in
  nth_error (database w) 1 = Some product /\
  0 < available product <= 2 ^ 53 /\
  nth_error
    (database (fst (OrderProcessingService.processProductOrder product w))) 1
    = Some (withStock 2 product).
Proof.
  cbv zeta.
  assert (0 < available (milk 2 3 (today + 10 * day)) <= 2 ^ 53) as Hstock
    by (split; [reflexivity|discriminate]).
  split; [reflexivity|]. split; [exact Hstock|].
  exact (proj2 (sale_writes_input_stock_minus_one
                  (milk 2 3 (today + 10 * day))
                  (worldOf [usbCable 5 15; milk 2 3 (today + 10 * day)])
                  1 (milk 2 3 (today + 10 * day))
                  eq_refl eq_refl Hstock
                  (or_intror (or_intror (conj eq_refl eq_refl))))).
Defined.

(** X14. A row that is in step with the product passed in only ever loses
    stock: if the row equals the product and the product's [available] is
    not negative, then after [processProductOrder] the row is still that
    product, with a stock between 0 and what it was; no other field of it
    has changed. *)
Theorem in_step_row_only_loses_stock
  (product : Product) (w : World) (i : nat) :
  nth_error (database w) i = Some product ->
  0 <= available product ->
  exists a,
    nth_error
      (database (fst (OrderProcessingService.processProductOrder product w)))
      i = Some (withStock a product) /\
    0 <= a <= available product.
Proof.
  intros Hrow Hstock.
  destruct (processProductOrder_outcome product w)
    as [(_ & _ & _ & Hthrow)
       |(strategy & result & w1 & _ & _ & Hanswer & Hdb & _ & Hsettle)].
  - rewrite Hthrow. cbn [fst]. exists (available product).
    rewrite withStock_same. split; [exact Hrow|lia].
  - rewrite Hsettle. cbn [fst].
    destruct (settle_database_rows product result w1 Hanswer)
      as [-> | (a & _ & Hbound & ->)]; rewrite Hdb.
    + exists (available product).
      rewrite withStock_same. split; [exact Hrow|lia].
    + exists a. split; [|exact (Hbound Hstock)].
      rewrite nth_error_map, Hrow. cbn.
      rewrite Z.eqb_refl. reflexivity.
Qed.

Lemma in_step_row_only_loses_stock_witness :
  nth_error (database (worldOf [milk 1 6 (today - 2 * day)])) 0 =
    Some (milk 1 6 (today - 2 * day)) /\
  0 <= available (milk 1 6 (today - 2 * day)) /\
  exists a,
    nth_error
      (database
         (fst (OrderProcessingService.processProductOrder
                 (milk 1 6 (today - 2 * day))
                 (worldOf [milk 1 6 (today - 2 * day)])))) 0
      = Some (withStock a (milk 1 6 (today - 2 * day))) /\
    0 <= a <= available (milk 1 6 (today - 2 * day)).
Proof.
  split; [reflexivity|]. split; [discriminate|].
  exact (in_step_row_only_loses_stock (milk 1 6 (today - 2 * day))
           (worldOf [milk 1 6 (today - 2 * day)]) 0 eq_refl
           ltac:(discriminate)).
Defined.

(** ** The same product more than once *)

(** Settling the same answer twice leaves the table as settling it once. *)
Lemma settle_twice_database product result w :
  Answer product result ->
  database (settle product result (settle product result w)) =
    database (settle product result w).
Proof.
  intros Hanswer. unfold settle; cbn [database].
  destruct (shouldUpdateStock result); [|reflexivity].
  destruct (updatedProduct result) as [values|] eqn:Hvalues; [|reflexivity].
  destruct (answer_overwrites _ _ _ Hanswer Hvalues) as (a & Hrow & _).
  unfold updateWhereId. rewrite map_map. apply map_ext. intros row.
  destruct (Z.eqb_spec (id row) (id product)) as [Heq|Hne].
  - rewrite !Hrow. cbn. rewrite Z.eqb_refl. reflexivity.
  - destruct (Z.eqb_spec (id row) (id product)); [contradiction|reflexivity].
Qed.

(** X15. An order that lists the same NORMAL product [n + 1] times sells
    it once: the table ends as after a single processing, because every
    turn computes from the same product as passed in.  Its effects are not
    deduplicated: the write, and the delay notification if there is one,
    are issued again at every turn. *)
Theorem repeated_normal_product_sells_once
  (product : Product) (n : nat) (w : World) :
  type product = "NORMAL" ->
  database
    (fst (OrderProcessingService.processOrder (repeat product (S n)) w)) =
    database (fst (OrderProcessingService.processProductOrder product w)) /\
  log (fst (OrderProcessingService.processOrder (repeat product (S n)) w)) =
    log w ++
    concat (repeat
              (effects product (NormalProductStrategy.processOrderAt product))
              (S n)).
Proof.
  intros Htype.
  pose (result := NormalProductStrategy.processOrderAt product).
  assert (Answer product result) as Hanswer by constructor.
  assert (forall w0,
             OrderProcessingService.processProductOrder product w0 =
               (settle product result w0, Returned tt)) as Hone.
  { intros w0. apply normal_product_processed, Htype. }
  rewrite Hone. cbn [fst]. fold result.
  revert w. induction n as [|n IH]; intros w.
  - cbn [repeat]. rewrite processOrder_cons, Hone. cbn.
    rewrite app_nil_r. split; reflexivity.
  - change (repeat product (S (S n)))
      with (product :: repeat product (S n)).
    rewrite processOrder_cons, Hone.
    destruct (IH (settle product result w)) as [Hdb Hlog].
    rewrite Hdb, Hlog. split.
    + apply settle_twice_database, Hanswer.
    + cbn [settle log repeat concat]. rewrite <- app_assoc. reflexivity.
Qed.

Lemma repeated_normal_product_sells_once_witness :
  type (usbCable 5 15) = "NORMAL" /\
  map available
    (database
       (fst (OrderProcessingService.processOrder
               (repeat (usbCable 5 15) 3) (worldOf [usbCable 5 15])))) = [4].
Proof.
  split; [reflexivity|].
  rewrite (proj1 (repeated_normal_product_sells_once (usbCable 5 15) 2
                    (worldOf [usbCable 5 15]) eq_refl)).
  reflexivity.
Defined.

(** ** How much an order can do *)

Lemma effects_at_most_one product result :
  (length (filter isUpdate (effects product result)) <= 1)%nat /\
  (length (filter isNotification (effects product result)) <= 1)%nat.
Proof.
  unfold effects, updateStep, notifyStep.
  destruct (shouldUpdateStock result), (updatedProduct result),
    (notificationAction result); cbn; split; auto.
Qed.

Lemma answered_effects_bounded
  (answered : list (Product * ProductProcessingResult)) :
  (length (filter isUpdate
             (flat_map (fun step => effects (fst step) (snd step)) answered))
     <= length answered)%nat /\
  (length (filter isNotification
             (flat_map (fun step => effects (fst step) (snd step)) answered))
     <= length answered)%nat.
Proof.
  induction answered as [|[product result] answered [IHu IHn]].
  - cbn. split; auto.
  - cbn [flat_map fst snd length].
    rewrite !filter_app, !length_app.
    destruct (effects_at_most_one product result) as [Hu Hn].
    split; lia.
Qed.

(** X16. An order never does more than one write and one notification per
    product: what [processOrder] adds to the log holds at most as many
    updates, and at most as many notifications, as the order has products;
    nothing already in the log is removed or reordered. *)
Theorem processOrder_effects_bounded
  (orderProducts : list Product) (w : World) :
  exists events,
    log (fst (OrderProcessingService.processOrder orderProducts w)) =
      log w ++ events /\
    (length (filter isUpdate events) <= length orderProducts)%nat /\
    (length (filter isNotification events) <= length orderProducts)%nat.
Proof.
  destruct (processOrder_batch orderProducts w)
    as (answered & rest & Hbatch & Horder).
  exists (flat_map (fun step => effects (fst step) (snd step)) answered).
  split; [exact (Batch_log _ _ _ Hbatch)|].
  destruct (answered_effects_bounded answered) as [Hu Hn].
  assert (length answered <= length orderProducts)%nat as Hlen.
  { rewrite Horder, length_app, length_map. lia. }
  split; lia.
Qed.
